(** * The todo service of [src/main.go]: handlers over one mgo collection

  The four chi handlers ([fetchTodos], [createTodo], [deleteTodo],
  [updateTodo]) are embedded as functions from what the handler reads from
  outside, the request and the collection, to the response handed to the
  renderer, the collection afterwards and the storage calls made.

  The packages the handlers call are embedded next to them, each operation
  as its package documents it: [strings.TrimSpace], [encoding/hex], the
  object ids and documents of [bson], and the collection operations of
  [mgo] on a session in safe mode (the mode [mgo.Dial] gives), where
  [Update] and [Remove] report [ErrNotFound] when nothing matches and an
  update document without update operators replaces the matched document.

  [rnd.JSON] is taken to write its response (its error is nil), so that
  [utils.CheckErr], which only acts on an error, does nothing. *)

From Stdlib Require Import ZArith NArith List String Ascii Bool Lia Permutation.
Import ListNotations.

#[local] Set Warnings "-register-all".

Local Open Scope string_scope.
Local Open Scope list_scope.

(** ** Go strings: byte sequences *)

Module Strings.

(** A Go string from its bytes. *)
Definition bytes (l : list N) : string :=
  string_of_list_ascii (map ascii_of_N l).

(** The UTF-8 encodings of the runes for which [unicode.IsSpace] holds:
    U+0009..U+000D, U+0020, U+0085, U+00A0, U+1680, U+2000..U+200A,
    U+2028, U+2029, U+202F, U+205F and U+3000. *)
Definition spaceRunes : list (list N) :=
  [ [9]; [10]; [11]; [12]; [13]; [32];
    [194; 133]; [194; 160];
    [225; 154; 128];
    [226; 128; 128]; [226; 128; 129]; [226; 128; 130]; [226; 128; 131];
    [226; 128; 132]; [226; 128; 133]; [226; 128; 134]; [226; 128; 135];
    [226; 128; 136]; [226; 128; 137]; [226; 128; 138];
    [226; 128; 168]; [226; 128; 169]; [226; 128; 175];
    [226; 129; 159];
    [227; 128; 128] ]%N.

(** [cutPrefix p s]: the rest of [s] after the bytes [p], if [s] starts
    with them. *)
Fixpoint cutPrefix (p : list N) (s : list ascii) : option (list ascii) :=
  match p, s with
  | [], _ => Some s
  | b :: p', c :: s' => if (N_of_ascii c =? b)%N then cutPrefix p' s' else None
  | _ :: _, [] => None
  end.

(** One leading rune of the table removed, if there is one. *)
Fixpoint cutRune (table : list (list N)) (s : list ascii) : option (list ascii) :=
  match table with
  | [] => None
  | p :: table' =>
      match cutPrefix p s with
      | Some r => Some r
      | None => cutRune table' s
      end
  end.

(** Leading runes of the table removed, at most [fuel] of them. *)
Fixpoint trimRunes (fuel : nat) (table : list (list N)) (s : list ascii) : list ascii :=
  match fuel with
  | O => s
  | S fuel' =>
      match cutRune table s with
      | Some r => trimRunes fuel' table r
      | None => s
      end
  end.

Definition TrimLeftSpace (s : list ascii) : list ascii :=
  trimRunes (List.length s) spaceRunes s.

(** Trailing white space: the last rune is read backwards, so the bytes of
    each encoding are matched in reverse on the reversed string. *)
Definition TrimRightSpace (s : list ascii) : list ascii :=
  rev (trimRunes (List.length s) (map (@rev N) spaceRunes) (rev s)).

(** [strings.TrimSpace]: all leading and trailing white space removed. *)
Definition TrimSpace (s : string) : string :=
  string_of_list_ascii (TrimRightSpace (TrimLeftSpace (list_ascii_of_string s))).

End Strings.

(** ** encoding/hex *)

Module EncodingHex.

Definition hextable : string := "0123456789abcdef".

Definition digit (n : N) : ascii :=
  match String.get (N.to_nat n) hextable with
  | Some c => c
  | None => "0"%char
  end.

(** [fromHexChar]: the value of a hexadecimal digit, in either case. *)
Definition fromHexChar (c : ascii) : option N :=
  let n := N_of_ascii c in
  if ((48 <=? n) && (n <=? 57))%N then Some (n - 48)%N
  else if ((97 <=? n) && (n <=? 102))%N then Some (n - 97 + 10)%N
  else if ((65 <=? n) && (n <=? 70))%N then Some (n - 65 + 10)%N
  else None.

(** [hex.EncodeToString]: two lower-case digits per byte. *)
Fixpoint EncodeToString (src : string) : string :=
  match src with
  | EmptyString => EmptyString
  | String b rest =>
      let n := N_of_ascii b in
      String (digit (n / 16)) (String (digit (n mod 16)) (EncodeToString rest))
  end.

(** [hex.DecodeString]: [None] stands for its error (a byte that is not a
    hexadecimal digit, or an odd length). *)
Fixpoint DecodeString (s : string) : option string :=
  match s with
  | EmptyString => Some EmptyString
  | String _ EmptyString => None
  | String a (String b rest) =>
      match fromHexChar a, fromHexChar b, DecodeString rest with
      | Some x, Some y, Some d => Some (String (ascii_of_N (x * 16 + y)) d)
      | _, _, _ => None
      end
  end.

(** A hexadecimal digit. *)
Definition hexChar (c : ascii) : Prop := fromHexChar c <> None.

End EncodingHex.

(** ** gopkg.in/mgo.v2/bson *)

Module Bson.

(** [type ObjectId string]: the twelve raw bytes. *)
Definition ObjectId : Type := string.

(** Instants, in milliseconds since the Unix epoch: the resolution at which
    BSON stores a [time.Time]. *)
Definition time : Type := Z.

(** The zero [time.Time], January 1 of year 1, 00:00 UTC. *)
Definition zeroTime : time := (-62135596800000)%Z.

(** What [NewObjectId] reads: the clock in seconds, the machine id, the
    process id and the process-wide counter after its atomic increment. *)
Record IdSource : Type := {
  unixSeconds : N;
  machineId : N;
  processId : N;
  objectIdCounter : N
}.

(** [byte(x >> k)]. *)
Definition byteOf (k x : N) : ascii := ascii_of_N ((x / 2 ^ k) mod 256).

(** [NewObjectId]: 4 bytes of time, 3 of machine id, 2 of process id and 3
    of counter, each big endian. *)
Definition NewObjectId (g : IdSource) : ObjectId :=
  string_of_list_ascii
    [ byteOf 24 (unixSeconds g); byteOf 16 (unixSeconds g);
      byteOf 8 (unixSeconds g); byteOf 0 (unixSeconds g);
      byteOf 16 (machineId g); byteOf 8 (machineId g); byteOf 0 (machineId g);
      byteOf 8 (processId g); byteOf 0 (processId g);
      byteOf 16 (objectIdCounter g); byteOf 8 (objectIdCounter g);
      byteOf 0 (objectIdCounter g) ].

(** [IsObjectIdHex]: 24 bytes that decode as hexadecimal. *)
Definition IsObjectIdHex (s : string) : bool :=
  if negb (String.length s =? 24)%nat then false
  else match EncodingHex.DecodeString s with
       | Some _ => true
       | None => false
       end.

(** [ObjectIdHex]: the id from its hex form; [None] stands for its panic on
    an input that does not decode to twelve bytes. *)
Definition ObjectIdHex (s : string) : option ObjectId :=
  match EncodingHex.DecodeString s with
  | Some d => if (String.length d =? 12)%nat then Some d else None
  | None => None
  end.

(** [ObjectId.Hex]. *)
Definition Hex (id : ObjectId) : string := EncodingHex.EncodeToString id.

(** The values this program stores in a document. *)
Inductive value : Type :=
| VObjectId (id : ObjectId)
| VString (s : string)
| VBool (b : bool)
| VTime (t : time).

Definition value_eqb (a b : value) : bool :=
  match a, b with
  | VObjectId x, VObjectId y => String.eqb x y
  | VString x, VString y => String.eqb x y
  | VBool x, VBool y => Bool.eqb x y
  | VTime x, VTime y => Z.eqb x y
  | _, _ => false
  end.

(** A BSON document ([bson.M], [bson.D], a marshalled struct): named
    fields. *)
Definition M : Type := list (string * value).

Fixpoint field (k : string) (d : M) : option value :=
  match d with
  | [] => None
  | (k', v) :: d' => if String.eqb k k' then Some v else field k d'
  end.

End Bson.

(** Go's [error] values, as far as the handlers tell them apart: they only
    test for [nil]. *)
Inductive error : Type :=
| ErrNotFound
| ErrDuplicateKey
| ErrOther (msg : string).

(** ** gopkg.in/mgo.v2: one collection of a session in safe mode *)

Module Mgo.

(** The documents of the collection, in the order the server returns
    them. *)
Definition Collection : Type := list Bson.M.

(** A selector of plain fields matches the documents that have each of them
    with that value; the empty selector matches every document. *)
Definition matches (selector d : Bson.M) : bool :=
  forallb (fun kv => match Bson.field (fst kv) d with
                     | Some v => Bson.value_eqb (snd kv) v
                     | None => false
                     end) selector.

(** Every operation first needs the server: [fault] is the error of the
    round trip, if it fails. *)
Definition All (fault : option error) (c : Collection) (selector : Bson.M)
  : error + list Bson.M :=
  match fault with
  | Some e => inl e
  | None => inr (filter (matches selector) c)
  end.

Definition hasId (v : Bson.value) (d : Bson.M) : bool :=
  match Bson.field "_id" d with
  | Some v' => Bson.value_eqb v v'
  | None => false
  end.

(** [Insert]: the document is added; one that arrives without [_id] is
    given [serverId] by the server; an [_id] already in the collection is
    refused by its unique index.  The new document is put last here; the
    server promises no order to a [Find] without [Sort]. *)
Definition Insert (fault : option error) (serverId : Bson.ObjectId)
  (c : Collection) (d : Bson.M) : error + Collection :=
  match fault with
  | Some e => inl e
  | None =>
      let d' := match Bson.field "_id" d with
                | Some _ => d
                | None => ("_id", Bson.VObjectId serverId) :: d
                end in
      match Bson.field "_id" d' with
      | Some v => if existsb (hasId v) c then inl ErrDuplicateKey else inr (c ++ [d'])
      | None => inr (c ++ [d'])
      end
  end.

Fixpoint removeFirst (selector : Bson.M) (c : Collection) : option Collection :=
  match c with
  | [] => None
  | d :: c' =>
      if matches selector d then Some c'
      else match removeFirst selector c' with
           | Some r => Some (d :: r)
           | None => None
           end
  end.

(** [Remove]: the first matching document is removed; [ErrNotFound] when
    none matches. *)
Definition Remove (fault : option error) (c : Collection) (selector : Bson.M)
  : error + Collection :=
  match fault with
  | Some e => inl e
  | None =>
      match removeFirst selector c with
      | Some c' => inr c'
      | None => inl ErrNotFound
      end
  end.

(** [RemoveId id] is [Remove (bson.D{{"_id", id}})]. *)
Definition RemoveId (fault : option error) (c : Collection) (id : Bson.ObjectId)
  : error + Collection :=
  Remove fault c [("_id", Bson.VObjectId id)].

Definition isOperator (k : string) : bool :=
  match k with
  | String c _ => Ascii.eqb c "$"%char
  | EmptyString => false
  end.

(** An update document without update operators is a replacement: the
    matched document keeps its [_id] and otherwise becomes the update
    document.  [None]: the update document names another [_id]. *)
Definition replacement (old update : Bson.M) : option Bson.M :=
  match Bson.field "_id" update, Bson.field "_id" old with
  | Some v, Some v0 => if Bson.value_eqb v v0 then Some update else None
  | Some _, None => Some update
  | None, Some v0 => Some (("_id", v0) :: update)
  | None, None => Some update
  end.

Fixpoint updateFirst (selector update : Bson.M) (c : Collection)
  : option (error + Collection) :=
  match c with
  | [] => None
  | d :: c' =>
      if matches selector d then
        match replacement d update with
        | Some d' => Some (inr (d' :: c'))
        | None => Some (inl (ErrOther "the _id field is immutable"))
        end
      else match updateFirst selector update c' with
           | Some (inr r) => Some (inr (d :: r))
           | Some (inl e) => Some (inl e)
           | None => None
           end
  end.

(** [Update]: the first matching document is modified according to the
    update document; [ErrNotFound] when none matches.  An operator key
    ([$set], ...) wants a document as its operand, which the values above
    do not have: the server refuses it. *)
Definition Update (fault : option error) (c : Collection) (selector update : Bson.M)
  : error + Collection :=
  match fault with
  | Some e => inl e
  | None =>
      if existsb (fun kv => isOperator (fst kv)) update
      then inl (ErrOther "Modifiers operate on fields")
      else match updateFirst selector update c with
           | Some r => r
           | None => inl ErrNotFound
           end
  end.

End Mgo.

(** ** github.com/thedevsaddam/renderer and encoding/json, as far as the
    handlers use them *)

(** A Go slice: [nil], or a backing array with its elements. *)
Inductive slice (A : Type) : Type :=
| nilSlice
| mkSlice (l : list A).
Arguments nilSlice {A}.
Arguments mkSlice {A} l.

Definition append {A : Type} (s : slice A) (x : A) : slice A :=
  match s with
  | nilSlice => mkSlice [x]
  | mkSlice l => mkSlice (l ++ [x])
  end.

Definition elems {A : Type} (s : slice A) : list A :=
  match s with
  | nilSlice => []
  | mkSlice l => l
  end.

(** [net/http] status codes. *)
Definition StatusProcessing : Z := 102.
Definition StatusOK : Z := 200.
Definition StatusCreated : Z := 201.
Definition StatusBadRequest : Z := 400.

(** ** package main *)

Module TodoModel.
Record t : Type := {
  ID : Bson.ObjectId;
  Title : string;
  Completed : bool;
  CreatedAt : Bson.time
}.
End TodoModel.

Module Todo.
Record t : Type := {
  ID : string;
  Title : string;
  Completed : bool;
  CreatedAt : Bson.time
}.
End Todo.

(** [TodoModel] to a document, by its [bson] tags: [_id] is [omitempty]. *)
Definition marshalTodoModel (tm : TodoModel.t) : Bson.M :=
  (if String.eqb (TodoModel.ID tm) "" then []
   else [("_id", Bson.VObjectId (TodoModel.ID tm))])
  ++ [ ("title", Bson.VString (TodoModel.Title tm));
       ("completed", Bson.VBool (TodoModel.Completed tm));
       ("createdAt", Bson.VTime (TodoModel.CreatedAt tm)) ].

(** A document into a zero [TodoModel]: a field the document lacks keeps
    its zero value. *)
Definition unmarshalTodoModel (d : Bson.M) : TodoModel.t :=
  {| TodoModel.ID := match Bson.field "_id" d with
                     | Some (Bson.VObjectId i) => i
                     | _ => EmptyString
                     end;
     TodoModel.Title := match Bson.field "title" d with
                        | Some (Bson.VString s) => s
                        | _ => EmptyString
                        end;
     TodoModel.Completed := match Bson.field "completed" d with
                            | Some (Bson.VBool b) => b
                            | _ => false
                            end;
     TodoModel.CreatedAt := match Bson.field "createdAt" d with
                            | Some (Bson.VTime t) => t
                            | _ => Bson.zeroTime
                            end |}.

(** What a handler passes to [rnd.JSON]: a [renderer.M], or an error
    value. *)
Inductive gvalue : Type :=
| GString (s : string)
| GError (e : error)
| GTodos (l : slice Todo.t).

Inductive payload : Type :=
| PMap (m : list (string * gvalue))
| PError (e : error).

(** The JSON text [rnd.JSON] writes, as a tree.  A [time.Time] is written
    as its RFC 3339 text and an error value by its dynamic type: both are
    kept as leaves. *)
Inductive json : Type :=
| JNull
| JBool (b : bool)
| JString (s : string)
| JTime (t : Bson.time)
| JErrorValue (e : error)
| JArray (l : list json)
| JObject (fields : list (string * json)).

Definition marshalTodo (t : Todo.t) : json :=
  JObject [ ("id", JString (Todo.ID t));
            ("title", JString (Todo.Title t));
            ("completed", JBool (Todo.Completed t));
            ("createdAt", JTime (Todo.CreatedAt t)) ].

(** [json.Marshal]: a nil slice is written [null]. *)
Definition marshalValue (v : gvalue) : json :=
  match v with
  | GString s => JString s
  | GError e => JErrorValue e
  | GTodos nilSlice => JNull
  | GTodos (mkSlice l) => JArray (map marshalTodo l)
  end.

Definition marshal (p : payload) : json :=
  match p with
  | PMap m => JObject (map (fun kv => (fst kv, marshalValue (snd kv))) m)
  | PError e => JErrorValue e
  end.

Fixpoint member (k : string) (fields : list (string * json)) : option json :=
  match fields with
  | [] => None
  | (k', v) :: rest => if String.eqb k k' then Some v else member k rest
  end.

(** The member [k] of a JSON object. *)
Definition jsonField (k : string) (j : json) : option json :=
  match j with
  | JObject fields => member k fields
  | _ => None
  end.

Record Response : Type := {
  status : Z;
  content : payload
}.

(** The request as the handlers read it: the [id] URL parameter, and what
    [json.NewDecoder(r.Body).Decode(&t)] gives on a zero [Todo]. *)
Inductive Decoded : Type :=
| DecodeFails (e : error)
| Decodes (t : Todo.t).

Inductive Method : Type := GET | POST | PUT | DELETE.

Record Request : Type := {
  method : Method;
  idParam : string;
  body : Decoded
}.

(** What the handler of one request reads from outside: the sources of
    [bson.NewObjectId], [time.Now()] at the resolution of the store, the
    error of the round trip to the server if it fails, and the [_id] the
    server would assign. *)
Record World : Type := {
  idSource : Bson.IdSource;
  now : Bson.time;
  fault : option error;
  serverId : Bson.ObjectId
}.

(** The calls on [db.C(collectionName)]. *)
Inductive Call : Type :=
| CallAll (selector : Bson.M)
| CallInsert (d : Bson.M)
| CallRemoveId (id : Bson.ObjectId)
| CallUpdate (selector update : Bson.M).

(** A handler's run: what it wrote with [rnd.JSON] ([None]: it returned
    without writing), the collection afterwards, the storage calls it made,
    and whether it panicked. *)
Record Outcome : Type := {
  response : option Response;
  collection : Mgo.Collection;
  calls : list Call;
  panicked : bool
}.

Definition reply (db : Mgo.Collection) (cs : list Call) (code : Z) (p : payload) : Outcome :=
  {| response := Some {| status := code; content := p |};
     collection := db; calls := cs; panicked := false |}.

Definition silent (db : Mgo.Collection) (cs : list Call) : Outcome :=
  {| response := None; collection := db; calls := cs; panicked := false |}.

Definition panic (db : Mgo.Collection) : Outcome :=
  {| response := None; collection := db; calls := []; panicked := true |}.

(** The view of a record, lines 76-81. *)
Definition toTodo (t : TodoModel.t) : Todo.t :=
  {| Todo.ID := Bson.Hex (TodoModel.ID t);
     Todo.Title := TodoModel.Title t;
     Todo.Completed := TodoModel.Completed t;
     Todo.CreatedAt := TodoModel.CreatedAt t |}.

(** [fetchTodos], lines 61-87. *)
Definition fetchTodos (w : World) (r : Request) (db : Mgo.Collection) : Outcome :=
  match Mgo.All (fault w) db [] with
  | inl err =>
      reply db [CallAll []] StatusProcessing
        (PMap [("message", GString "Failed to fetch Todo"); ("error", GError err)])
  | inr docs =>
      let todos := map unmarshalTodoModel docs in
      let todoList := fold_left (fun acc t => append acc (toTodo t)) todos nilSlice in
      reply db [CallAll []] StatusOK (PMap [("data", GTodos todoList)])
  end.

(** [createTodo], lines 89-128. *)
Definition createTodo (w : World) (r : Request) (db : Mgo.Collection) : Outcome :=
  match body r with
  | DecodeFails err => reply db [] StatusProcessing (PError err)
  | Decodes t =>
      if String.eqb (Todo.Title t) "" then
        reply db [] StatusBadRequest (PMap [("message", GString "The title is required")])
      else
        let tm := {| TodoModel.ID := Bson.NewObjectId (idSource w);
                     TodoModel.Title := Todo.Title t;
                     TodoModel.Completed := false;
                     TodoModel.CreatedAt := now w |} in
        let d := marshalTodoModel tm in
        match Mgo.Insert (fault w) (serverId w) db d with
        | inl _ =>
            reply db [CallInsert d] StatusProcessing
              (PMap [("message", GString "Failed to save todo")])
        | inr db' =>
            reply db' [CallInsert d] StatusCreated
              (PMap [("message", GString "todo created successfully");
                     ("todo_id", GString (Bson.Hex (TodoModel.ID tm)))])
        end
  end.

(** [deleteTodo], lines 130-158. *)
Definition deleteTodo (w : World) (r : Request) (db : Mgo.Collection) : Outcome :=
  let id := Strings.TrimSpace (idParam r) in
  if negb (Bson.IsObjectIdHex id) then
    reply db [] StatusBadRequest (PMap [("message", GString "The id is invalid")])
  else
    match Bson.ObjectIdHex id with
    | None => panic db
    | Some oid =>
        match Mgo.RemoveId (fault w) db oid with
        | inl err =>
            reply db [CallRemoveId oid] StatusBadRequest
              (PMap [("message", GString "Failed to delete todo"); ("error", GError err)])
        | inr db' =>
            reply db' [CallRemoveId oid] StatusOK
              (PMap [("message", GString "Todo deleted successfully")])
        end
    end.

(** [updateTodo], lines 160-207: on success nothing is written. *)
Definition updateTodo (w : World) (r : Request) (db : Mgo.Collection) : Outcome :=
  let id := Strings.TrimSpace (idParam r) in
  if negb (Bson.IsObjectIdHex id) then
    reply db [] StatusBadRequest (PMap [("message", GString "The id is invalid")])
  else
    match body r with
    | DecodeFails err =>
        reply db [] StatusProcessing
          (PMap [("message", GString "The body is invalid"); ("error", GError err)])
    | Decodes t =>
        if String.eqb (Todo.Title t) "" then
          reply db [] StatusBadRequest
            (PMap [("message", GString "The title field is required")])
        else
          match Bson.ObjectIdHex id with
          | None => panic db
          | Some oid =>
              let selector := [("_id", Bson.VObjectId oid)] in
              let update := [ ("title", Bson.VString (Todo.Title t));
                              ("completed", Bson.VBool (Todo.Completed t)) ] in
              match Mgo.Update (fault w) db selector update with
              | inl _ =>
                  reply db [CallUpdate selector update] StatusProcessing
                    (PMap [("message", GString "Failed to update todo")])
              | inr db' => silent db' [CallUpdate selector update]
              end
          end
    end.

(** [todoHandlers]: the routes mounted under [/todo]. *)
Definition todoHandlers (w : World) (r : Request) (db : Mgo.Collection) : Outcome :=
  match method r with
  | GET => fetchTodos w r db
  | POST => createTodo w r db
  | PUT => updateTodo w r db
  | DELETE => deleteTodo w r db
  end.

(** The record [createTodo] builds from a decoded body. *)
Definition newTodo (w : World) (t : Todo.t) : TodoModel.t :=
  {| TodoModel.ID := Bson.NewObjectId (idSource w);
     TodoModel.Title := Todo.Title t;
     TodoModel.Completed := false;
     TodoModel.CreatedAt := now w |}.

(** The update document [updateTodo] passes to [Update]. *)
Definition updateOf (t : Todo.t) : Bson.M :=
  [ ("title", Bson.VString (Todo.Title t));
    ("completed", Bson.VBool (Todo.Completed t)) ].

(** ** Runs of the service *)

(** A served request with what its handler read from outside. *)
Definition Step : Type := (World * Request)%type.

(** The collection after a sequence of requests, served one after the
    other. *)
Fixpoint run (tr : list Step) (db : Mgo.Collection) : Mgo.Collection :=
  match tr with
  | [] => db
  | (w, r) :: tr' => run tr' (collection (todoHandlers w r db))
  end.

Definition statusOf (o : Outcome) : option Z :=
  match response o with
  | Some resp => Some (status resp)
  | None => None
  end.

(** A create that answered 201 Created. *)
Definition created (r : Request) (o : Outcome) : bool :=
  match method r, statusOf o with
  | POST, Some code => (code =? StatusCreated)%Z
  | _, _ => false
  end.

(** A delete that answered 200 OK. *)
Definition deleted (r : Request) (o : Outcome) : bool :=
  match method r, statusOf o with
  | DELETE, Some code => (code =? StatusOK)%Z
  | _, _ => false
  end.

(** The number of steps of a run that [hit] holds of. *)
Fixpoint tally (hit : Request -> Outcome -> bool) (tr : list Step)
  (db : Mgo.Collection) : nat :=
  match tr with
  | [] => 0
  | (w, r) :: tr' =>
      let o := todoHandlers w r db in
      (if hit r o then 1 else 0) + tally hit tr' (collection o)
  end.

(** The record a document reads back as has a title. *)
Definition titled (d : Bson.M) : Prop :=
  TodoModel.Title (unmarshalTodoModel d) <> EmptyString.

(** Every record in the collection has a non-empty title. *)
Definition allTitled (db : Mgo.Collection) : Prop := Forall titled db.

(** The documents of the collection whose [_id] is [oid]. *)
Definition withId (oid : Bson.ObjectId) (db : Mgo.Collection) : Mgo.Collection :=
  filter (Mgo.hasId (Bson.VObjectId oid)) db.

(** The message of a response. *)
Definition message (code : Z) (msg : string) : Response :=
  {| status := code; content := PMap [("message", GString msg)] |}.

(** The [data] member of the JSON a response carries. *)
Definition dataOf (o : Outcome) : option json :=
  match response o with
  | Some resp => jsonField "data" (marshal (content resp))
  | None => None
  end.

(** ** Concrete requests *)

Module Sample.

Definition ids : Bson.IdSource :=
  {| Bson.unixSeconds := 1700000000; Bson.machineId := 11259375;
     Bson.processId := 4660; Bson.objectIdCounter := 1 |}.

(** A request served while the server answers. *)
Definition world : World :=
  {| idSource := ids; now := 1700000000123%Z; fault := None;
     serverId := Strings.bytes [0; 0; 0; 0; 0; 0; 0; 0; 0; 0; 0; 7]%N |}.

(** A request served while the server cannot be reached. *)
Definition offline : World :=
  {| idSource := ids; now := 1700000000123%Z;
     fault := Some (ErrOther "no reachable servers");
     serverId := Strings.bytes [0; 0; 0; 0; 0; 0; 0; 0; 0; 0; 0; 7]%N |}.

Definition milk : Todo.t :=
  {| Todo.ID := EmptyString; Todo.Title := "buy milk"; Todo.Completed := true;
     Todo.CreatedAt := Bson.zeroTime |}.

Definition untitled : Todo.t :=
  {| Todo.ID := EmptyString; Todo.Title := EmptyString; Todo.Completed := false;
     Todo.CreatedAt := Bson.zeroTime |}.

Definition bread : Todo.t :=
  {| Todo.ID := EmptyString; Todo.Title := "buy bread"; Todo.Completed := true;
     Todo.CreatedAt := Bson.zeroTime |}.

(** The hex form of the id [NewObjectId] makes from [ids]. *)
Definition hexId : string := "6553f100abcdef1234000001".

Definition post (t : Todo.t) : Request :=
  {| method := POST; idParam := EmptyString; body := Decodes t |}.

Definition put (id : string) (b : Decoded) : Request :=
  {| method := PUT; idParam := id; body := b |}.

Definition delete (id : string) : Request :=
  {| method := DELETE; idParam := id;
     body := DecodeFails (ErrOther "EOF") |}.

Definition get : Request :=
  {| method := GET; idParam := EmptyString; body := DecodeFails (ErrOther "EOF") |}.

(** The collection after one create from the empty one. *)
Definition one : Mgo.Collection := collection (createTodo world (post milk) []).

End Sample.

(** ** Identifiers of the stored records *)

(** The identifier a document reads back with. *)
Definition recordId (d : Bson.M) : Bson.ObjectId :=
  TodoModel.ID (unmarshalTodoModel d).

(** The document has an [_id] that is an object id of twelve bytes. *)
Definition keyedDoc (d : Bson.M) : Prop :=
  exists i, Bson.field "_id" d = Some (Bson.VObjectId i) /\ String.length i = 12.

(** Every record has a twelve-byte object id, and no two records share
    one. *)
Definition distinctIds (db : Mgo.Collection) : Prop :=
  Forall keyedDoc db /\ NoDup (map recordId db).

(** The six ASCII white-space bytes: tab, line feed, vertical tab, form
    feed, carriage return and space. *)
Definition asciiSpace (c : ascii) : Prop :=
  In (N_of_ascii c) [9; 10; 11; 12; 13; 32]%N.

(** The text [s] between the bytes [l] and [r]. *)
Definition padded (l : list ascii) (s : string) (r : list ascii) : string :=
  string_of_list_ascii (l ++ list_ascii_of_string s ++ r).

(** The views a list response carries. *)
Definition viewsOf (o : Outcome) : list Todo.t :=
  match response o with
  | Some {| content := PMap [(_, GTodos l)] |} => elems l
  | _ => []
  end.

(** Further concrete requests. *)
Module Fixture.

Definition ids2 : Bson.IdSource :=
  {| Bson.unixSeconds := 1700000000; Bson.machineId := 11259375;
     Bson.processId := 4660; Bson.objectIdCounter := 2 |}.

(** A later request of the same process: the counter has moved on. *)
Definition world2 : World :=
  {| idSource := ids2; now := 1700000000456%Z; fault := None;
     serverId := Strings.bytes [0; 0; 0; 0; 0; 0; 0; 0; 0; 0; 0; 7]%N |}.

(** The hex form of the id [NewObjectId] makes from [ids2]. *)
Definition hexId2 : string := "6553f100abcdef1234000002".

(** Two creates, an update of the first record and a delete that finds
    nothing. *)
Definition trace : list Step :=
  [ (Sample.world, Sample.post Sample.milk);
    (world2, Sample.post Sample.bread);
    (world2, Sample.put Sample.hexId (Decodes Sample.bread));
    (world2, Sample.delete "6553f100abcdef1234000009") ].

(** The collection after two creates. *)
Definition two : Mgo.Collection :=
  run [ (Sample.world, Sample.post Sample.milk);
        (world2, Sample.post Sample.bread) ] [].

End Fixture.

(** ** Hexadecimal ids and white space *)

Section HexFacts.

(** No white-space rune, read forwards or backwards, starts with a
    hexadecimal digit. *)
Lemma cutRune_hexChar (c : ascii) (s : list ascii) :
  EncodingHex.hexChar c ->
  Strings.cutRune Strings.spaceRunes (c :: s) = None
  /\ Strings.cutRune (map (@rev N) Strings.spaceRunes) (c :: s) = None.
Proof.
  unfold EncodingHex.hexChar.
  destruct c as [[] [] [] [] [] [] [] []]; vm_compute; intro H;
    solve [ split; reflexivity | exfalso; apply H; reflexivity ].
Qed.

Lemma trimRunes_stuck (table : list (list N)) (s : list ascii) (fuel : nat) :
  Strings.cutRune table s = None -> Strings.trimRunes fuel table s = s.
Proof.
  intro H. destruct fuel as [|fuel]; simpl; [reflexivity|]. now rewrite H.
Qed.

Lemma rev_head_Forall {A : Type} (P : A -> Prop) (l : list A) :
  Forall P l -> l <> [] -> exists c l', rev l = c :: l' /\ P c.
Proof.
  intros HP Hne. destruct (rev l) as [|c l'] eqn:E.
  - exfalso. apply Hne. rewrite <- (rev_involutive l), E. reflexivity.
  - exists c, l'. split; [reflexivity|].
    rewrite Forall_forall in HP. apply HP, in_rev. rewrite E. now left.
Qed.

(** White space is only trimmed off a text that starts or ends with it. *)
Lemma TrimSpace_hexChars (s : string) :
  Forall EncodingHex.hexChar (list_ascii_of_string s) -> Strings.TrimSpace s = s.
Proof.
  intro H. unfold Strings.TrimSpace.
  destruct (list_ascii_of_string s) as [|c l] eqn:E.
  - rewrite <- (string_of_list_ascii_of_string s), E. reflexivity.
  - assert (HL : Strings.TrimLeftSpace (c :: l) = c :: l).
    { unfold Strings.TrimLeftSpace. apply trimRunes_stuck.
      inversion H as [|? ? Hc Hl]; subst.
      exact (proj1 (cutRune_hexChar c l Hc)). }
    rewrite HL. unfold Strings.TrimRightSpace.
    destruct (rev_head_Forall EncodingHex.hexChar (c :: l) H) as (c' & l' & Hrev & Hc');
      [discriminate|].
    rewrite Hrev.
    rewrite (trimRunes_stuck _ _ _ (proj2 (cutRune_hexChar c' l' Hc'))).
    rewrite <- Hrev, rev_involutive, <- E.
    apply string_of_list_ascii_of_string.
Qed.

(** What [hex.DecodeString] accepts: hexadecimal digits, two for each byte
    it returns. *)
Lemma DecodeString_sound (s : string) :
  (forall d, EncodingHex.DecodeString s = Some d ->
     Forall EncodingHex.hexChar (list_ascii_of_string s)
     /\ String.length s = 2 * String.length d)
  /\ (forall a d, EncodingHex.DecodeString (String a s) = Some d ->
     Forall EncodingHex.hexChar (list_ascii_of_string (String a s))
     /\ String.length (String a s) = 2 * String.length d).
Proof.
  induction s as [|b s [IH1 IH2]].
  - split.
    + intros d H. inversion H; subst. split; [constructor | reflexivity].
    + intros a d H. discriminate H.
  - split.
    + intros d H. now apply IH2.
    + intros a d H. cbn [EncodingHex.DecodeString] in H.
      destruct (EncodingHex.fromHexChar a) as [x|] eqn:Ea; [|discriminate].
      destruct (EncodingHex.fromHexChar b) as [y|] eqn:Eb; [|discriminate].
      destruct (EncodingHex.DecodeString s) as [d'|] eqn:Ed; [|discriminate].
      inversion H; subst. destruct (IH1 d' eq_refl) as [HF HL]. split.
      * cbn [list_ascii_of_string].
        constructor; [unfold EncodingHex.hexChar; congruence|].
        constructor; [unfold EncodingHex.hexChar; congruence|]. exact HF.
      * cbn [String.length]. rewrite HL. lia.
Qed.

Lemma IsObjectIdHex_inv (s : string) :
  Bson.IsObjectIdHex s = true ->
  exists d, EncodingHex.DecodeString s = Some d /\ String.length s = 24.
Proof.
  unfold Bson.IsObjectIdHex. intro H.
  destruct (String.length s =? 24)%nat eqn:EL; cbn [negb] in H; [|discriminate].
  destruct (EncodingHex.DecodeString s) as [d|]; [|discriminate].
  exists d. split; [reflexivity|]. now apply Nat.eqb_eq.
Qed.

(** A valid hex id has no white space to trim. *)
Lemma TrimSpace_IsObjectIdHex (s : string) :
  Bson.IsObjectIdHex s = true -> Strings.TrimSpace s = s.
Proof.
  intro H. destruct (IsObjectIdHex_inv s H) as (d & Hd & _).
  apply TrimSpace_hexChars. now apply (proj1 (DecodeString_sound s) d).
Qed.

(** After the [IsObjectIdHex] guard, [ObjectIdHex] does not panic. *)
Lemma ObjectIdHex_total (s : string) :
  Bson.IsObjectIdHex s = true -> exists oid, Bson.ObjectIdHex s = Some oid.
Proof.
  intro H. destruct (IsObjectIdHex_inv s H) as (d & Hd & HL).
  exists d. unfold Bson.ObjectIdHex. rewrite Hd.
  destruct (proj1 (DecodeString_sound s) d Hd) as [_ Hlen].
  replace (String.length d) with 12 by lia. reflexivity.
Qed.

Lemma hex_byte (b : ascii) :
  EncodingHex.fromHexChar (EncodingHex.digit (N_of_ascii b / 16)) = Some (N_of_ascii b / 16)%N
  /\ EncodingHex.fromHexChar (EncodingHex.digit (N_of_ascii b mod 16)) = Some (N_of_ascii b mod 16)%N
  /\ ascii_of_N (N_of_ascii b / 16 * 16 + N_of_ascii b mod 16) = b.
Proof.
  destruct b as [[] [] [] [] [] [] [] []]; vm_compute; repeat split.
Qed.

(** [hex.DecodeString] undoes [hex.EncodeToString]. *)
Lemma Decode_Encode (s : string) :
  EncodingHex.DecodeString (EncodingHex.EncodeToString s) = Some s.
Proof.
  induction s as [|b s IH]; [reflexivity|].
  cbn [EncodingHex.EncodeToString EncodingHex.DecodeString].
  destruct (hex_byte b) as (H1 & H2 & H3).
  rewrite H1, H2, IH, H3. reflexivity.
Qed.

Lemma NewObjectId_length (g : Bson.IdSource) :
  String.length (Bson.NewObjectId g) = 12.
Proof. reflexivity. Qed.

(** The hex form of a twelve-byte id names that id. *)
Lemma ObjectIdHex_Hex (id : Bson.ObjectId) :
  String.length id = 12 ->
  Bson.IsObjectIdHex (Bson.Hex id) = true
  /\ Bson.ObjectIdHex (Bson.Hex id) = Some id.
Proof.
  intro HL. unfold Bson.IsObjectIdHex, Bson.ObjectIdHex, Bson.Hex.
  rewrite Decode_Encode, HL.
  destruct (proj1 (DecodeString_sound _) _ (Decode_Encode id)) as [_ Hlen].
  rewrite Hlen, HL. split; reflexivity.
Qed.

End HexFacts.

(** ** The collection operations *)

Section MgoFacts.

Lemma All_everything (c : Mgo.Collection) : Mgo.All None c [] = inr c.
Proof.
  unfold Mgo.All. f_equal. induction c as [|d c IH]; [reflexivity|].
  cbn. now rewrite IH.
Qed.

Lemma matches_id (oid : Bson.ObjectId) (d : Bson.M) :
  Mgo.matches [("_id", Bson.VObjectId oid)] d = Mgo.hasId (Bson.VObjectId oid) d.
Proof.
  unfold Mgo.matches, Mgo.hasId. cbn.
  destruct (Bson.field "_id" d); [apply andb_true_r | reflexivity].
Qed.

Lemma removeFirst_length (sel : Bson.M) (c c' : Mgo.Collection) :
  Mgo.removeFirst sel c = Some c' -> List.length c = S (List.length c').
Proof.
  revert c'. induction c as [|d c IH]; intros c' H; [discriminate|].
  cbn in H. destruct (Mgo.matches sel d).
  - inversion H; subst. reflexivity.
  - destruct (Mgo.removeFirst sel c) as [r|]; [|discriminate].
    inversion H; subst. cbn. now rewrite (IH r eq_refl).
Qed.

Lemma removeFirst_Forall (P : Bson.M -> Prop) (sel : Bson.M) (c c' : Mgo.Collection) :
  Forall P c -> Mgo.removeFirst sel c = Some c' -> Forall P c'.
Proof.
  revert c'. induction c as [|d c IH]; intros c' HP H; [discriminate|].
  inversion HP as [|? ? Hd Hc]; subst. cbn in H. destruct (Mgo.matches sel d).
  - inversion H; subst. exact Hc.
  - destruct (Mgo.removeFirst sel c) as [r|]; [|discriminate].
    inversion H; subst. constructor; [exact Hd | now apply IH].
Qed.

Lemma removeFirst_missing (sel : Bson.M) (c : Mgo.Collection) :
  existsb (Mgo.matches sel) c = false -> Mgo.removeFirst sel c = None.
Proof.
  induction c as [|d c IH]; [reflexivity|]. cbn.
  destruct (Mgo.matches sel d); [discriminate|]. intro H. now rewrite IH.
Qed.

Lemma updateFirst_length (sel upd : Bson.M) (c c' : Mgo.Collection) :
  Mgo.updateFirst sel upd c = Some (inr c') -> List.length c' = List.length c.
Proof.
  revert c'. induction c as [|d c IH]; intros c' H; [discriminate|].
  cbn in H. destruct (Mgo.matches sel d).
  - destruct (Mgo.replacement d upd); inversion H; subst. reflexivity.
  - destruct (Mgo.updateFirst sel upd c) as [[e|r]|]; inversion H; subst.
    cbn. now rewrite (IH r eq_refl).
Qed.

Lemma updateFirst_Forall (P : Bson.M -> Prop) (sel upd : Bson.M) (c c' : Mgo.Collection) :
  (forall d d', Mgo.replacement d upd = Some d' -> P d') ->
  Forall P c -> Mgo.updateFirst sel upd c = Some (inr c') -> Forall P c'.
Proof.
  intro Hrep. revert c'. induction c as [|d c IH]; intros c' HP H; [discriminate|].
  inversion HP as [|? ? Hd Hc]; subst. cbn in H. destruct (Mgo.matches sel d).
  - destruct (Mgo.replacement d upd) as [d'|] eqn:E; inversion H; subst.
    constructor; [now apply (Hrep d) | exact Hc].
  - destruct (Mgo.updateFirst sel upd c) as [[e|r]|]; inversion H; subst.
    constructor; [exact Hd | now apply IH].
Qed.

Lemma updateFirst_missing (sel upd : Bson.M) (c : Mgo.Collection) :
  existsb (Mgo.matches sel) c = false -> Mgo.updateFirst sel upd c = None.
Proof.
  induction c as [|d c IH]; [reflexivity|]. cbn.
  destruct (Mgo.matches sel d); [discriminate|]. intro H. now rewrite IH.
Qed.

(** An update document that names no [_id] replaces whatever matches. *)
Lemma updateFirst_found (sel upd : Bson.M) (c : Mgo.Collection) :
  Bson.field "_id" upd = None ->
  existsb (Mgo.matches sel) c = true ->
  exists c', Mgo.updateFirst sel upd c = Some (inr c').
Proof.
  intros Hid. induction c as [|d c IH]; [discriminate|]. cbn.
  destruct (Mgo.matches sel d).
  - intros _. unfold Mgo.replacement. rewrite Hid.
    destruct (Bson.field "_id" d); eexists; reflexivity.
  - intro H. destruct (IH H) as [c' Hc']. rewrite Hc'. eexists; reflexivity.
Qed.

Lemma existsb_matches_id (oid : Bson.ObjectId) (c : Mgo.Collection) :
  existsb (Mgo.matches [("_id", Bson.VObjectId oid)]) c
  = existsb (Mgo.hasId (Bson.VObjectId oid)) c.
Proof.
  induction c as [|d c IH]; [reflexivity|]. cbn [existsb].
  now rewrite matches_id, IH.
Qed.

Lemma updateFirst_at (sel upd : Bson.M) (pre post : Mgo.Collection) (d d' : Bson.M) :
  existsb (Mgo.matches sel) pre = false ->
  Mgo.matches sel d = true ->
  Mgo.replacement d upd = Some d' ->
  Mgo.updateFirst sel upd (pre ++ d :: post) = Some (inr (pre ++ d' :: post)).
Proof.
  intros Hpre Hd Hrep. induction pre as [|x pre IH]; cbn.
  - now rewrite Hd, Hrep.
  - cbn in Hpre. destruct (Mgo.matches sel x); [discriminate|].
    now rewrite (IH Hpre).
Qed.

Lemma hasId_field (oid : Bson.ObjectId) (d : Bson.M) :
  Mgo.hasId (Bson.VObjectId oid) d = true ->
  Bson.field "_id" d = Some (Bson.VObjectId oid).
Proof.
  unfold Mgo.hasId. destruct (Bson.field "_id" d) as [v|]; [|discriminate].
  destruct v; cbn; try discriminate. intro H. apply String.eqb_eq in H. now subst.
Qed.

End MgoFacts.

(** ** The handlers, path by path *)

Section HandlerFacts.

Variables (w : World) (r : Request) (db : Mgo.Collection).

Lemma createTodo_paths (t : Todo.t) :
  body r = Decodes t -> Todo.Title t <> EmptyString ->
  createTodo w r db =
    let d := marshalTodoModel (newTodo w t) in
    match fault w with
    | Some _ => reply db [CallInsert d] StatusProcessing
                  (PMap [("message", GString "Failed to save todo")])
    | None =>
        if existsb (Mgo.hasId (Bson.VObjectId (Bson.NewObjectId (idSource w)))) db
        then reply db [CallInsert d] StatusProcessing
               (PMap [("message", GString "Failed to save todo")])
        else reply (db ++ [d]) [CallInsert d] StatusCreated
               (PMap [("message", GString "todo created successfully");
                      ("todo_id", GString (Bson.Hex (Bson.NewObjectId (idSource w))))])
    end.
Proof.
  intros Hb Ht. unfold createTodo. rewrite Hb.
  apply String.eqb_neq in Ht. rewrite Ht.
  unfold Mgo.Insert. destruct (fault w); [reflexivity|].
  change (marshalTodoModel _) with (marshalTodoModel (newTodo w t)).
  change (marshalTodoModel (newTodo w t)) with
    (("_id", Bson.VObjectId (Bson.NewObjectId (idSource w)))
       :: [ ("title", Bson.VString (Todo.Title t));
            ("completed", Bson.VBool false);
            ("createdAt", Bson.VTime (now w)) ]).
  cbn [Bson.field String.eqb Ascii.eqb Bool.eqb].
  destruct (existsb _ db); reflexivity.
Qed.

Lemma Update_paths (oid : Bson.ObjectId) (t : Todo.t) :
  Mgo.Update (fault w) db [("_id", Bson.VObjectId oid)] (updateOf t) =
    match fault w with
    | Some e => inl e
    | None =>
        match Mgo.updateFirst [("_id", Bson.VObjectId oid)] (updateOf t) db with
        | Some res => res
        | None => inl ErrNotFound
        end
    end.
Proof. reflexivity. Qed.

Lemma updateTodo_paths (t : Todo.t) (oid : Bson.ObjectId) :
  Bson.IsObjectIdHex (Strings.TrimSpace (idParam r)) = true ->
  Bson.ObjectIdHex (Strings.TrimSpace (idParam r)) = Some oid ->
  body r = Decodes t -> Todo.Title t <> EmptyString ->
  updateTodo w r db =
    match Mgo.Update (fault w) db [("_id", Bson.VObjectId oid)] (updateOf t) with
    | inl _ => reply db [CallUpdate [("_id", Bson.VObjectId oid)] (updateOf t)]
                 StatusProcessing (PMap [("message", GString "Failed to update todo")])
    | inr db' => silent db' [CallUpdate [("_id", Bson.VObjectId oid)] (updateOf t)]
    end.
Proof.
  intros Hv Ho Hb Ht. unfold updateTodo. rewrite Hv, Hb, Ho.
  apply String.eqb_neq in Ht. rewrite Ht. reflexivity.
Qed.

Lemma deleteTodo_paths (oid : Bson.ObjectId) :
  Bson.IsObjectIdHex (Strings.TrimSpace (idParam r)) = true ->
  Bson.ObjectIdHex (Strings.TrimSpace (idParam r)) = Some oid ->
  deleteTodo w r db =
    match Mgo.RemoveId (fault w) db oid with
    | inl err => reply db [CallRemoveId oid] StatusBadRequest
                   (PMap [("message", GString "Failed to delete todo");
                          ("error", GError err)])
    | inr db' => reply db' [CallRemoveId oid] StatusOK
                   (PMap [("message", GString "Todo deleted successfully")])
    end.
Proof.
  intros Hv Ho. unfold deleteTodo. rewrite Hv, Ho. reflexivity.
Qed.

Lemma withId_nil (oid : Bson.ObjectId) :
  withId oid db = [] <-> existsb (Mgo.hasId (Bson.VObjectId oid)) db = false.
Proof.
  unfold withId. induction db as [|d c IH]; [now split|]. cbn.
  destruct (Mgo.hasId (Bson.VObjectId oid) d); [now split | exact IH].
Qed.

Lemma fold_append_mk {A B : Type} (f : A -> B) (l : list A) (acc : list B) :
  fold_left (fun s x => append s (f x)) l (mkSlice acc) = mkSlice (acc ++ map f l).
Proof.
  revert acc. induction l as [|x l IH]; intro acc; cbn.
  - now rewrite app_nil_r.
  - rewrite IH, <- app_assoc. reflexivity.
Qed.

(** The loop of [fetchTodos]: the slice stays nil unless there is a record
    to append. *)
Lemma fold_append {A B : Type} (f : A -> B) (l : list A) :
  fold_left (fun s x => append s (f x)) l nilSlice =
    match l with
    | [] => nilSlice
    | _ :: _ => mkSlice (map f l)
    end.
Proof.
  destruct l as [|x l]; [reflexivity|]. cbn. now rewrite fold_append_mk.
Qed.

Lemma fetchTodos_paths :
  fetchTodos w r db =
    match fault w with
    | Some e =>
        reply db [CallAll []] StatusProcessing
          (PMap [("message", GString "Failed to fetch Todo"); ("error", GError e)])
    | None =>
        reply db [CallAll []] StatusOK
          (PMap [("data", GTodos match db with
                                 | [] => nilSlice
                                 | _ :: _ => mkSlice (map toTodo (map unmarshalTodoModel db))
                                 end)])
    end.
Proof.
  unfold fetchTodos. destruct (fault w) as [e|]; [reflexivity|].
  rewrite All_everything, fold_append. destruct db; reflexivity.
Qed.

Lemma createTodo_cases :
  (collection (createTodo w r db) = db
   /\ statusOf (createTodo w r db) <> Some StatusCreated)
  \/ (exists t, body r = Decodes t /\ Todo.Title t <> EmptyString
       /\ collection (createTodo w r db) = db ++ [marshalTodoModel (newTodo w t)]
       /\ statusOf (createTodo w r db) = Some StatusCreated).
Proof.
  destruct (body r) as [e|t] eqn:Hb.
  - left. unfold createTodo. rewrite Hb. split; [reflexivity | discriminate].
  - destruct (String.eqb (Todo.Title t) EmptyString) eqn:Ht.
    + left. unfold createTodo. rewrite Hb, Ht. split; [reflexivity | discriminate].
    + apply String.eqb_neq in Ht. rewrite (createTodo_paths t Hb Ht). cbv zeta.
      destruct (fault w); [left; split; [reflexivity | discriminate]|].
      destruct (existsb _ db); [left; split; [reflexivity | discriminate]|].
      right. exists t. repeat split; assumption.
Qed.

Lemma deleteTodo_cases :
  (collection (deleteTodo w r db) = db
   /\ statusOf (deleteTodo w r db) <> Some StatusOK)
  \/ (exists oid,
        Mgo.removeFirst [("_id", Bson.VObjectId oid)] db = Some (collection (deleteTodo w r db))
        /\ statusOf (deleteTodo w r db) = Some StatusOK).
Proof.
  destruct (Bson.IsObjectIdHex (Strings.TrimSpace (idParam r))) eqn:Hv.
  - destruct (ObjectIdHex_total _ Hv) as [oid Ho].
    rewrite (deleteTodo_paths oid Hv Ho). unfold Mgo.RemoveId, Mgo.Remove.
    destruct (fault w); [left; split; [reflexivity | discriminate]|].
    destruct (Mgo.removeFirst _ db) as [c'|] eqn:E.
    + right. exists oid. rewrite E. split; reflexivity.
    + left. split; [reflexivity | discriminate].
  - left. unfold deleteTodo. rewrite Hv. split; [reflexivity | discriminate].
Qed.

Lemma updateTodo_cases :
  collection (updateTodo w r db) = db
  \/ (exists t oid,
        Todo.Title t <> EmptyString
        /\ Mgo.updateFirst [("_id", Bson.VObjectId oid)] (updateOf t) db
           = Some (inr (collection (updateTodo w r db)))).
Proof.
  destruct (Bson.IsObjectIdHex (Strings.TrimSpace (idParam r))) eqn:Hv;
    [|left; unfold updateTodo; now rewrite Hv].
  destruct (body r) as [e|t] eqn:Hb;
    [left; unfold updateTodo; now rewrite Hv, Hb|].
  destruct (String.eqb (Todo.Title t) EmptyString) eqn:Ht;
    [left; unfold updateTodo; now rewrite Hv, Hb, Ht|].
  apply String.eqb_neq in Ht.
  destruct (ObjectIdHex_total _ Hv) as [oid Ho].
  rewrite (updateTodo_paths t oid Hv Ho Hb Ht), Update_paths.
  destruct (fault w); [left; reflexivity|].
  destruct (Mgo.updateFirst _ _ db) as [[e|c']|] eqn:E; try (left; reflexivity).
  right. exists t, oid. split; [exact Ht | exact E].
Qed.

(** No handler panics: [ObjectIdHex] is only called behind its guard. *)
Lemma todoHandlers_no_panic : panicked (todoHandlers w r db) = false.
Proof.
  unfold todoHandlers. destruct (method r).
  - rewrite fetchTodos_paths. destruct (fault w); reflexivity.
  - unfold createTodo. destruct (body r) as [e|t]; [reflexivity|].
    destruct (String.eqb _ _); [reflexivity|].
    destruct (Mgo.Insert _ _ _ _); reflexivity.
  - unfold updateTodo.
    destruct (Bson.IsObjectIdHex _) eqn:Hv; [|reflexivity].
    destruct (ObjectIdHex_total _ Hv) as [oid Ho]. rewrite Ho. cbn [negb].
    destruct (body r) as [e|t]; [reflexivity|].
    destruct (String.eqb _ _); [reflexivity|].
    destruct (Mgo.Update _ _ _ _); reflexivity.
  - unfold deleteTodo.
    destruct (Bson.IsObjectIdHex _) eqn:Hv; [|reflexivity].
    destruct (ObjectIdHex_total _ Hv) as [oid Ho]. rewrite Ho. cbn [negb].
    destruct (Mgo.RemoveId _ _ _); reflexivity.
Qed.

(** What a successful update leaves of the record it matches: its [_id],
    the submitted title and completed, and nothing else; [createdAt] is
    gone and reads back as the zero time. *)
Lemma updateTodo_replaces_document
  (t : Todo.t) (oid : Bson.ObjectId) (pre post : Mgo.Collection) (d : Bson.M) :
  Bson.IsObjectIdHex (idParam r) = true ->
  Bson.ObjectIdHex (idParam r) = Some oid ->
  body r = Decodes t -> Todo.Title t <> EmptyString ->
  fault w = None ->
  withId oid pre = [] ->
  Mgo.hasId (Bson.VObjectId oid) d = true ->
  collection (updateTodo w r (pre ++ d :: post))
    = pre ++ (("_id", Bson.VObjectId oid) :: updateOf t) :: post
  /\ unmarshalTodoModel (("_id", Bson.VObjectId oid) :: updateOf t)
     = {| TodoModel.ID := oid;
          TodoModel.Title := Todo.Title t;
          TodoModel.Completed := Todo.Completed t;
          TodoModel.CreatedAt := Bson.zeroTime |}.
Proof.
  intros Hv Ho Hb Ht Hf Hpre Hd. split; [|reflexivity].
  pose proof (TrimSpace_IsObjectIdHex _ Hv) as Htrim.
  unfold updateTodo. rewrite Htrim, Hv, Hb, Ho.
  apply String.eqb_neq in Ht. rewrite Ht. cbn [negb].
  fold (updateOf t). unfold Mgo.Update. rewrite Hf.
  cbn [existsb updateOf fst Mgo.isOperator Ascii.eqb Bool.eqb orb].
  rewrite (updateFirst_at _ _ pre post d (("_id", Bson.VObjectId oid) :: updateOf t)).
  - reflexivity.
  - rewrite existsb_matches_id. clear -Hpre. unfold withId in Hpre.
    induction pre as [|x pre IH]; [reflexivity|]. cbn in *.
    destruct (Mgo.hasId (Bson.VObjectId oid) x); [discriminate | exact (IH Hpre)].
  - now rewrite matches_id.
  - unfold Mgo.replacement. rewrite (hasId_field oid d Hd). reflexivity.
Qed.

(** A delete of a valid id that no record has is refused by the storage
    and answered 400; the collection is as before. *)
Lemma deleteTodo_missing_id (oid : Bson.ObjectId) :
  Bson.IsObjectIdHex (Strings.TrimSpace (idParam r)) = true ->
  Bson.ObjectIdHex (Strings.TrimSpace (idParam r)) = Some oid ->
  fault w = None ->
  withId oid db = [] ->
  deleteTodo w r db =
    reply db [CallRemoveId oid] StatusBadRequest
      (PMap [("message", GString "Failed to delete todo"); ("error", GError ErrNotFound)]).
Proof.
  intros Hv Ho Hf Hnone. rewrite (deleteTodo_paths oid Hv Ho).
  unfold Mgo.RemoveId, Mgo.Remove. rewrite Hf.
  rewrite removeFirst_missing; [reflexivity|].
  rewrite existsb_matches_id. now apply withId_nil.
Qed.

End HandlerFacts.

(** ** Counting along a run *)

Section RunFacts.

(** One request changes the number of records by the create or the delete
    it completes, and by nothing else. *)
Lemma step_count (w : World) (r : Request) (db : Mgo.Collection) :
  List.length (collection (todoHandlers w r db))
    + (if deleted r (todoHandlers w r db) then 1 else 0)
  = List.length db + (if created r (todoHandlers w r db) then 1 else 0).
Proof.
  unfold todoHandlers, created, deleted. destruct (method r).
  - rewrite fetchTodos_paths. destruct (fault w); cbn; lia.
  - destruct (createTodo_cases w r db) as [[Hc Hs] | (t & _ & _ & Hc & Hs)];
      rewrite Hc.
    + destruct (statusOf (createTodo w r db)) as [code|]; [|lia].
      destruct (code =? StatusCreated)%Z eqn:E; [|lia].
      apply Z.eqb_eq in E. subst code. now elim Hs.
    + rewrite Hs, length_app. cbn. lia.
  - destruct (updateTodo_cases w r db) as [Hc | (t & oid & _ & Hu)].
    + rewrite Hc. lia.
    + rewrite (updateFirst_length _ _ _ _ Hu). lia.
  - destruct (deleteTodo_cases w r db) as [[Hc Hs] | (oid & Hr & Hs)].
    + rewrite Hc. destruct (statusOf (deleteTodo w r db)) as [code|]; [|lia].
      destruct (code =? StatusOK)%Z eqn:E; [|lia].
      apply Z.eqb_eq in E. subst code. now elim Hs.
    + rewrite Hs, (removeFirst_length _ _ _ Hr). cbn. lia.
Qed.

Lemma run_count (tr : list Step) (db : Mgo.Collection) :
  List.length (run tr db) + tally deleted tr db
  = List.length db + tally created tr db.
Proof.
  revert db. induction tr as [|[w r] tr IH]; intro db; cbn [run tally]; [lia|].
  specialize (IH (collection (todoHandlers w r db))).
  pose proof (step_count w r db). lia.
Qed.

End RunFacts.

(** ** The claims *)

(** C1: the update is meant to change the title and completed fields only,
    leaving the identifier and createdAt as they were.  The code passes the
    two fields as a plain update document, which replaces the stored
    document: on the record created by one POST, a PUT with that id keeps
    the identifier, writes the new title and completed, and drops
    createdAt, which then reads back as the zero time instead of the
    creation time. *)
Theorem C1_update_drops_createdAt :
  map unmarshalTodoModel Sample.one =
    [ {| TodoModel.ID := Bson.NewObjectId Sample.ids;
         TodoModel.Title := "buy milk";
         TodoModel.Completed := false;
         TodoModel.CreatedAt := 1700000000123%Z |} ]
  /\ map unmarshalTodoModel
       (collection (updateTodo Sample.world
                      (Sample.put Sample.hexId (Decodes Sample.bread)) Sample.one)) =
    [ {| TodoModel.ID := Bson.NewObjectId Sample.ids;
         TodoModel.Title := "buy bread";
         TodoModel.Completed := true;
         TodoModel.CreatedAt := Bson.zeroTime |} ]
  /\ Bson.zeroTime <> 1700000000123%Z.
Proof.
  split; [vm_compute; reflexivity|].
  split; [vm_compute; reflexivity|].
  discriminate.
Qed.

(** C2, as stated, fails: with a valid id, a decoded body and a title, the
    update of an id that is not in the collection is answered (102, Failed
    to update todo), the update of an id that is there is not answered at
    all. *)
Lemma C2_missing_id_is_distinguished :
  Bson.IsObjectIdHex (idParam (Sample.put Sample.hexId (Decodes Sample.bread))) = true
  /\ Todo.Title Sample.bread <> EmptyString
  /\ withId (Bson.NewObjectId Sample.ids) [] = []
  /\ withId (Bson.NewObjectId Sample.ids) Sample.one <> []
  /\ Bson.ObjectIdHex Sample.hexId = Some (Bson.NewObjectId Sample.ids)
  /\ response (updateTodo Sample.world (Sample.put Sample.hexId (Decodes Sample.bread)) [])
     = Some (message StatusProcessing "Failed to update todo")
  /\ response (updateTodo Sample.world (Sample.put Sample.hexId (Decodes Sample.bread)) Sample.one)
     = None
  /\ response (updateTodo Sample.world (Sample.put Sample.hexId (Decodes Sample.bread)) [])
     <> response (updateTodo Sample.world (Sample.put Sample.hexId (Decodes Sample.bread)) Sample.one).
Proof.
  repeat split; try (vm_compute; reflexivity); vm_compute; discriminate.
Qed.

(** C2, amended: for every update request with a valid id, a decoded body
    and a non-empty title, when no record has that id the handler answers
    status 102 with message Failed to update todo and leaves the collection
    as it was; when a record has that id and the server is reached, the
    handler writes no response at all. *)
Theorem C2_update_reports_missing_id
  (w : World) (r : Request) (db : Mgo.Collection) (t : Todo.t) (oid : Bson.ObjectId) :
  Bson.IsObjectIdHex (idParam r) = true ->
  Bson.ObjectIdHex (idParam r) = Some oid ->
  body r = Decodes t ->
  Todo.Title t <> EmptyString ->
  (withId oid db = [] ->
     response (updateTodo w r db) = Some (message StatusProcessing "Failed to update todo")
     /\ collection (updateTodo w r db) = db)
  /\ (withId oid db <> [] -> fault w = None ->
     response (updateTodo w r db) = None).
Proof.
  intros Hv Ho Hb Ht.
  pose proof (TrimSpace_IsObjectIdHex _ Hv) as Htrim.
  rewrite (updateTodo_paths w r db t oid) by (rewrite ?Htrim; assumption).
  rewrite Update_paths. split.
  - intro Hnone. apply withId_nil in Hnone.
    destruct (fault w); [split; reflexivity|].
    rewrite updateFirst_missing by (now rewrite existsb_matches_id).
    split; reflexivity.
  - intros Hsome Hf. rewrite Hf.
    destruct (updateFirst_found [("_id", Bson.VObjectId oid)] (updateOf t) db eq_refl)
      as [c' Hc'].
    + rewrite existsb_matches_id.
      destruct (existsb (Mgo.hasId (Bson.VObjectId oid)) db) eqn:E; [reflexivity|].
      exfalso. apply Hsome. now apply withId_nil.
    + rewrite Hc'. reflexivity.
Qed.

Lemma C2_update_reports_missing_id_witness :
  Bson.IsObjectIdHex Sample.hexId = true
  /\ Todo.Title Sample.bread <> EmptyString
  /\ withId (Bson.NewObjectId Sample.ids) Sample.one <> []
  /\ response (updateTodo Sample.world
                 (Sample.put Sample.hexId (Decodes Sample.bread)) Sample.one) = None.
Proof.
  split; [vm_compute; reflexivity|].
  split; [discriminate|].
  split; [vm_compute; discriminate|].
  apply (C2_update_reports_missing_id Sample.world
           (Sample.put Sample.hexId (Decodes Sample.bread)) Sample.one
           Sample.bread (Bson.NewObjectId Sample.ids)).
  - vm_compute; reflexivity.
  - vm_compute; reflexivity.
  - reflexivity.
  - discriminate.
  - vm_compute; discriminate.
  - reflexivity.
Defined.

(** C3, as stated, fails: a create whose body decodes with a title is
    answered 102, and nothing is stored, when the insert fails, here
    because the server is not reached. *)
Lemma C3_create_fails_offline :
  body (Sample.post Sample.milk) = Decodes Sample.milk
  /\ Todo.Title Sample.milk <> EmptyString
  /\ response (createTodo Sample.offline (Sample.post Sample.milk) [])
     = Some (message StatusProcessing "Failed to save todo")
  /\ statusOf (createTodo Sample.offline (Sample.post Sample.milk) [])
     <> Some StatusCreated
  /\ collection (createTodo Sample.offline (Sample.post Sample.milk) []) = [].
Proof.
  repeat split; try reflexivity; discriminate.
Qed.

(** C3, amended: for every create request whose body decodes with a
    non-empty title, whatever completed value it submits, and whose insert
    succeeds (the server is reached and the new identifier is not yet in
    the collection), the handler answers 201 with the hex form of the new
    identifier, which names that identifier; afterwards exactly one record
    of the collection has it, with the submitted title, completed false and
    createdAt the time read at creation, at or after the request start. *)
Theorem C3_create_stores_record
  (w : World) (r : Request) (db : Mgo.Collection) (t : Todo.t) (start : Bson.time) :
  body r = Decodes t ->
  Todo.Title t <> EmptyString ->
  fault w = None ->
  withId (Bson.NewObjectId (idSource w)) db = [] ->
  (start <= now w)%Z ->
  response (createTodo w r db) =
    Some {| status := StatusCreated;
            content := PMap [("message", GString "todo created successfully");
                             ("todo_id", GString (Bson.Hex (Bson.NewObjectId (idSource w))))] |}
  /\ Bson.ObjectIdHex (Bson.Hex (Bson.NewObjectId (idSource w)))
     = Some (Bson.NewObjectId (idSource w))
  /\ exists d,
       withId (Bson.NewObjectId (idSource w)) (collection (createTodo w r db)) = [d]
       /\ unmarshalTodoModel d =
            {| TodoModel.ID := Bson.NewObjectId (idSource w);
               TodoModel.Title := Todo.Title t;
               TodoModel.Completed := false;
               TodoModel.CreatedAt := now w |}
       /\ (start <= TodoModel.CreatedAt (unmarshalTodoModel d))%Z.
Proof.
  intros Hb Ht Hf Hnew Hstart.
  rewrite (createTodo_paths w r db t Hb Ht), Hf.
  pose proof (proj1 (withId_nil db _) Hnew) as Hex. cbv zeta. rewrite Hex.
  split; [reflexivity|].
  split; [apply ObjectIdHex_Hex, NewObjectId_length|].
  exists (marshalTodoModel (newTodo w t)).
  assert (Hd : unmarshalTodoModel (marshalTodoModel (newTodo w t)) = newTodo w t)
    by reflexivity.
  split; [|split].
  - unfold reply, collection, withId. rewrite filter_app.
    fold (withId (Bson.NewObjectId (idSource w)) db). rewrite Hnew.
    cbn [filter app].
    replace (Mgo.hasId _ (marshalTodoModel (newTodo w t))) with true; [reflexivity|].
    symmetry. change (String.eqb (Bson.NewObjectId (idSource w))
                                 (Bson.NewObjectId (idSource w)) = true).
    apply String.eqb_refl.
  - exact Hd.
  - rewrite Hd. exact Hstart.
Qed.

Lemma C3_create_stores_record_witness :
  Todo.Title Sample.milk <> EmptyString
  /\ withId (Bson.NewObjectId Sample.ids) [] = []
  /\ (1700000000000 <= now Sample.world)%Z
  /\ statusOf (createTodo Sample.world (Sample.post Sample.milk) []) = Some StatusCreated.
Proof.
  split; [discriminate|].
  split; [reflexivity|].
  split; [vm_compute; discriminate|].
  unfold statusOf.
  rewrite (proj1 (C3_create_stores_record Sample.world (Sample.post Sample.milk) []
                    Sample.milk 1700000000000%Z eq_refl
                    ltac:(discriminate) eq_refl eq_refl ltac:(vm_compute; discriminate))).
  reflexivity.
Defined.

(** C4: for every create request whose body decodes with the empty title,
    the handler answers 400 with message The title is required; it makes no
    storage call and the collection is as before. *)
Theorem C4_create_rejects_empty_title
  (w : World) (r : Request) (db : Mgo.Collection) (t : Todo.t) :
  body r = Decodes t ->
  Todo.Title t = EmptyString ->
  response (createTodo w r db) = Some (message StatusBadRequest "The title is required")
  /\ calls (createTodo w r db) = []
  /\ collection (createTodo w r db) = db.
Proof.
  intros Hb Ht. unfold createTodo. rewrite Hb, Ht. repeat split.
Qed.

Lemma C4_create_rejects_empty_title_witness :
  Todo.Title Sample.untitled = EmptyString
  /\ response (createTodo Sample.world (Sample.post Sample.untitled) Sample.one)
     = Some (message StatusBadRequest "The title is required")
  /\ collection (createTodo Sample.world (Sample.post Sample.untitled) Sample.one)
     = Sample.one.
Proof.
  split; [reflexivity|].
  pose proof (C4_create_rejects_empty_title Sample.world (Sample.post Sample.untitled)
                Sample.one Sample.untitled eq_refl eq_refl) as H.
  split; [exact (proj1 H) | exact (proj2 (proj2 H))].
Defined.

(** C5, as stated, fails at its first check: an id parameter that is not a
    valid identifier (25 bytes, the first a space) is not answered 400 The
    id is invalid, since the handler trims white space before it tests the
    id; the request goes on to the second check. *)
Lemma C5_padded_id_passes_first_check :
  Bson.IsObjectIdHex (idParam (Sample.put " 6553f100abcdef1234000001"
                                 (DecodeFails (ErrOther "unexpected EOF")))) = false
  /\ response (updateTodo Sample.world
                 (Sample.put " 6553f100abcdef1234000001"
                    (DecodeFails (ErrOther "unexpected EOF"))) Sample.one)
     = Some {| status := StatusProcessing;
               content := PMap [("message", GString "The body is invalid");
                                ("error", GError (ErrOther "unexpected EOF"))] |}
  /\ response (updateTodo Sample.world
                 (Sample.put " 6553f100abcdef1234000001"
                    (DecodeFails (ErrOther "unexpected EOF"))) Sample.one)
     <> Some (message StatusBadRequest "The id is invalid").
Proof.
  split; [vm_compute; reflexivity|].
  split; [vm_compute; reflexivity|].
  vm_compute; discriminate.
Qed.

(** C5, amended: for every update request the checks come in this order,
    and a failing check ends the handler with no storage call and the
    collection as before: first, if the id parameter with its leading and
    trailing white space trimmed is not a valid identifier, the answer is
    400 The id is invalid, whatever the body; second, if the body does not
    decode, the answer is 102 The body is invalid with the decoding error;
    third, if the decoded title is empty, the answer is 400 The title field
    is required. *)
Theorem C5_update_checks_in_order (w : World) (r : Request) (db : Mgo.Collection) :
  (Bson.IsObjectIdHex (Strings.TrimSpace (idParam r)) = false ->
     updateTodo w r db =
       reply db [] StatusBadRequest (PMap [("message", GString "The id is invalid")]))
  /\ (forall e,
        Bson.IsObjectIdHex (Strings.TrimSpace (idParam r)) = true ->
        body r = DecodeFails e ->
        updateTodo w r db =
          reply db [] StatusProcessing
            (PMap [("message", GString "The body is invalid"); ("error", GError e)]))
  /\ (forall t,
        Bson.IsObjectIdHex (Strings.TrimSpace (idParam r)) = true ->
        body r = Decodes t ->
        Todo.Title t = EmptyString ->
        updateTodo w r db =
          reply db [] StatusBadRequest
            (PMap [("message", GString "The title field is required")])).
Proof.
  unfold updateTodo. repeat split.
  - intro H. rewrite H. reflexivity.
  - intros e H Hb. rewrite H, Hb. reflexivity.
  - intros t H Hb Ht. rewrite H, Hb, Ht. reflexivity.
Qed.

Lemma C5_update_checks_in_order_witness :
  Bson.IsObjectIdHex (Strings.TrimSpace "6553f100abcdef123400000") = false
  /\ Bson.IsObjectIdHex (Strings.TrimSpace " 6553f100abcdef1234000001") = true
  /\ calls (updateTodo Sample.world
              (Sample.put "6553f100abcdef123400000" (Decodes Sample.bread)) Sample.one) = []
  /\ statusOf (updateTodo Sample.world
                 (Sample.put " 6553f100abcdef1234000001"
                    (DecodeFails (ErrOther "unexpected EOF"))) Sample.one)
     = Some StatusProcessing
  /\ statusOf (updateTodo Sample.offline
                 (Sample.put " 6553f100abcdef1234000001" (Decodes Sample.untitled))
                 Sample.one)
     = Some StatusBadRequest.
Proof.
  split; [vm_compute; reflexivity|].
  split; [vm_compute; reflexivity|].
  split; [|split].
  - rewrite (proj1 (C5_update_checks_in_order Sample.world
                      (Sample.put "6553f100abcdef123400000" (Decodes Sample.bread))
                      Sample.one)); [reflexivity | vm_compute; reflexivity].
  - rewrite (proj1 (proj2 (C5_update_checks_in_order Sample.world
                      (Sample.put " 6553f100abcdef1234000001"
                         (DecodeFails (ErrOther "unexpected EOF")))
                      Sample.one)) (ErrOther "unexpected EOF"));
      [reflexivity | vm_compute; reflexivity | reflexivity].
  - rewrite (proj2 (proj2 (C5_update_checks_in_order Sample.offline
                      (Sample.put " 6553f100abcdef1234000001" (Decodes Sample.untitled))
                      Sample.one)) Sample.untitled);
      [reflexivity | vm_compute; reflexivity | reflexivity | reflexivity].
Defined.

(** C6, as stated, fails: a delete whose id parameter is not a valid
    identifier (25 bytes, the first a space) is not refused; the handler
    trims the white space, calls the storage and removes the record. *)
Lemma C6_padded_id_reaches_storage :
  Bson.IsObjectIdHex (idParam (Sample.delete " 6553f100abcdef1234000001")) = false
  /\ Sample.one <> []
  /\ deleteTodo Sample.world (Sample.delete " 6553f100abcdef1234000001") Sample.one
     = reply [] [CallRemoveId (Bson.NewObjectId Sample.ids)] StatusOK
         (PMap [("message", GString "Todo deleted successfully")]).
Proof.
  split; [vm_compute; reflexivity|].
  split; [vm_compute; discriminate|].
  vm_compute; reflexivity.
Qed.

(** C6, amended: for every delete request whose id parameter, with its
    leading and trailing white space trimmed, is not a valid identifier
    (24 hexadecimal digits), the handler answers 400 The id is invalid,
    makes no storage call and leaves the collection as it was. *)
Theorem C6_delete_rejects_invalid_id (w : World) (r : Request) (db : Mgo.Collection) :
  Bson.IsObjectIdHex (Strings.TrimSpace (idParam r)) = false ->
  response (deleteTodo w r db) = Some (message StatusBadRequest "The id is invalid")
  /\ calls (deleteTodo w r db) = []
  /\ collection (deleteTodo w r db) = db.
Proof.
  intro H. unfold deleteTodo. rewrite H. repeat split.
Qed.

Lemma C6_delete_rejects_invalid_id_witness :
  Bson.IsObjectIdHex (Strings.TrimSpace "6553f100abcdef12340000zz") = false
  /\ response (deleteTodo Sample.world (Sample.delete "6553f100abcdef12340000zz") Sample.one)
     = Some (message StatusBadRequest "The id is invalid")
  /\ collection (deleteTodo Sample.world (Sample.delete "6553f100abcdef12340000zz") Sample.one)
     = Sample.one.
Proof.
  split; [vm_compute; reflexivity|].
  pose proof (C6_delete_rejects_invalid_id Sample.world
                (Sample.delete "6553f100abcdef12340000zz") Sample.one) as H.
  split; [apply H | apply H]; vm_compute; reflexivity.
Defined.

(** C7, as stated, fails on the empty collection: the query succeeds and
    the answer is 200, but its data member is null, not the array of the
    views of all (no) records. *)
Lemma C7_empty_list_is_not_an_array :
  fault Sample.world = None
  /\ statusOf (fetchTodos Sample.world Sample.get []) = Some StatusOK
  /\ dataOf (fetchTodos Sample.world Sample.get []) = Some JNull
  /\ dataOf (fetchTodos Sample.world Sample.get [])
     <> Some (JArray (map marshalTodo (map toTodo (map unmarshalTodoModel [])))).
Proof.
  repeat split; try reflexivity. discriminate.
Qed.

(** C7, amended: for every collection, when the query succeeds the list
    handler answers 200 with an object whose data member is, when the
    collection is not empty, the array of the views of all records in
    storage order, each view with the title, completed and createdAt of its
    record and the hex form of its identifier, and, when the collection is
    empty, null; when the query fails it answers 102 with the message
    Failed to fetch Todo and the error, never a 5xx status. *)
Theorem C7_list_views (w : World) (r : Request) (db : Mgo.Collection) :
  (fault w = None -> db <> [] ->
     response (fetchTodos w r db) =
       Some {| status := StatusOK;
               content := PMap [("data", GTodos (mkSlice (map toTodo
                                   (map unmarshalTodoModel db))))] |}
     /\ dataOf (fetchTodos w r db) =
          Some (JArray (map marshalTodo (map toTodo (map unmarshalTodoModel db)))))
  /\ (fault w = None -> db = [] ->
     response (fetchTodos w r db) =
       Some {| status := StatusOK; content := PMap [("data", GTodos nilSlice)] |}
     /\ dataOf (fetchTodos w r db) = Some JNull)
  /\ (forall m : TodoModel.t,
        Todo.ID (toTodo m) = Bson.Hex (TodoModel.ID m)
        /\ Todo.Title (toTodo m) = TodoModel.Title m
        /\ Todo.Completed (toTodo m) = TodoModel.Completed m
        /\ Todo.CreatedAt (toTodo m) = TodoModel.CreatedAt m)
  /\ (forall e, fault w = Some e ->
        response (fetchTodos w r db) =
          Some {| status := StatusProcessing;
                  content := PMap [("message", GString "Failed to fetch Todo");
                                   ("error", GError e)] |}
        /\ ~ (500 <= StatusProcessing < 600)%Z
        /\ collection (fetchTodos w r db) = db).
Proof.
  rewrite fetchTodos_paths. split; [|split; [|split]].
  - intros Hf Hne. rewrite Hf.
    destruct db; [contradiction|]. split; reflexivity.
  - intros Hf He. rewrite Hf, He. split; reflexivity.
  - intro m. repeat split.
  - intros e Hf. rewrite Hf. repeat split. unfold StatusProcessing. lia.
Qed.

Lemma C7_list_views_witness :
  fault Sample.world = None
  /\ Sample.one <> []
  /\ fault Sample.offline = Some (ErrOther "no reachable servers")
  /\ dataOf (fetchTodos Sample.world Sample.get Sample.one) =
       Some (JArray [ JObject [ ("id", JString Sample.hexId);
                                ("title", JString "buy milk");
                                ("completed", JBool false);
                                ("createdAt", JTime 1700000000123%Z) ] ])
  /\ statusOf (fetchTodos Sample.offline Sample.get Sample.one) = Some StatusProcessing
  /\ statusOf (fetchTodos Sample.world Sample.get []) = Some StatusOK.
Proof.
  split; [reflexivity|].
  split; [vm_compute; discriminate|].
  split; [reflexivity|].
  pose proof (C7_list_views Sample.world Sample.get Sample.one) as HA.
  pose proof (C7_list_views Sample.offline Sample.get Sample.one) as HB.
  pose proof (C7_list_views Sample.world Sample.get []) as HC.
  split; [|split].
  - rewrite (proj2 (proj1 HA eq_refl ltac:(vm_compute; discriminate))).
    vm_compute; reflexivity.
  - unfold statusOf.
    rewrite (proj1 (proj2 (proj2 (proj2 HB)) _ eq_refl)). reflexivity.
  - unfold statusOf.
    rewrite (proj1 (proj1 (proj2 HC) eq_refl eq_refl)). reflexivity.
Defined.

(** C8: from the empty collection, after any sequence of requests in which
    N creates were answered 201 and M deletes were answered 200 (other
    requests, failed or not, may come between), M is at most N and a list
    whose query succeeds answers 200 with exactly N - M records. *)
Theorem C8_list_counts_creates_minus_deletes (tr : list Step) (w : World) (r : Request) :
  fault w = None ->
  tally deleted tr [] <= tally created tr []
  /\ exists l,
       response (fetchTodos w r (run tr [])) =
         Some {| status := StatusOK; content := PMap [("data", GTodos l)] |}
       /\ List.length (elems l) = tally created tr [] - tally deleted tr [].
Proof.
  intro Hf. pose proof (run_count tr []) as Hc. cbn [List.length] in Hc.
  split; [lia|].
  rewrite fetchTodos_paths, Hf. eexists. split; [reflexivity|].
  destruct (run tr []) as [|d c] eqn:E.
  - cbn in *. lia.
  - cbn [elems]. rewrite !length_map. lia.
Qed.

Lemma C8_list_counts_creates_minus_deletes_witness :
  fault Sample.world = None
  /\ tally created [ (Sample.world, Sample.post Sample.milk);
                     (Sample.world, Sample.delete Sample.hexId);
                     (Sample.world, Sample.post Sample.bread) ] [] = 2
  /\ tally deleted [ (Sample.world, Sample.post Sample.milk);
                     (Sample.world, Sample.delete Sample.hexId);
                     (Sample.world, Sample.post Sample.bread) ] [] = 1
  /\ tally deleted [ (Sample.world, Sample.post Sample.milk);
                     (Sample.world, Sample.delete Sample.hexId);
                     (Sample.world, Sample.post Sample.bread) ] []
     <= tally created [ (Sample.world, Sample.post Sample.milk);
                        (Sample.world, Sample.delete Sample.hexId);
                        (Sample.world, Sample.post Sample.bread) ] [].
Proof.
  split; [reflexivity|].
  split; [vm_compute; reflexivity|].
  split; [vm_compute; reflexivity|].
  exact (proj1 (C8_list_counts_creates_minus_deletes
                  [ (Sample.world, Sample.post Sample.milk);
                    (Sample.world, Sample.delete Sample.hexId);
                    (Sample.world, Sample.post Sample.bread) ]
                  Sample.world Sample.get eq_refl)).
Defined.

(** C9: every record of the collection has a non-empty title: this holds of
    the empty collection and is kept by every create, update and delete,
    whatever the request. *)
Theorem C9_titles_invariant :
  allTitled []
  /\ forall (w : World) (r : Request) (db : Mgo.Collection),
       allTitled db ->
       allTitled (collection (createTodo w r db))
       /\ allTitled (collection (updateTodo w r db))
       /\ allTitled (collection (deleteTodo w r db)).
Proof.
  split; [constructor|]. intros w r db Hinv. unfold allTitled in *. repeat split.
  - destruct (createTodo_cases w r db) as [[Hc _] | (t & _ & Ht & Hc & _)];
      rewrite Hc; [exact Hinv|].
    apply Forall_app. split; [exact Hinv|]. constructor; [|constructor].
    exact Ht.
  - destruct (updateTodo_cases w r db) as [Hc | (t & oid & Ht & Hu)].
    + rewrite Hc. exact Hinv.
    + apply (updateFirst_Forall titled _ _ _ _ ) with (3 := Hu); [|exact Hinv].
      intros d d' Hrep. unfold Mgo.replacement in Hrep. cbn [Bson.field updateOf String.eqb Ascii.eqb Bool.eqb] in Hrep.
      destruct (Bson.field "_id" d); inversion Hrep; subst; exact Ht.
  - destruct (deleteTodo_cases w r db) as [[Hc _] | (oid & Hr & _)].
    + rewrite Hc. exact Hinv.
    + exact (removeFirst_Forall titled _ _ _ Hinv Hr).
Qed.

Lemma C9_titles_invariant_witness :
  allTitled Sample.one
  /\ allTitled (collection (updateTodo Sample.world
                              (Sample.put Sample.hexId (Decodes Sample.bread)) Sample.one)).
Proof.
  assert (H : allTitled Sample.one).
  { constructor; [vm_compute; discriminate | constructor]. }
  split; [exact H|].
  apply (proj2 C9_titles_invariant Sample.world
           (Sample.put Sample.hexId (Decodes Sample.bread)) Sample.one H).
Defined.

(** C10: when the collection is empty and the query succeeds, the data
    member of the list handler's response is null and not the empty array:
    the slice of views is nil until a record is appended. *)
Theorem C10_empty_list_is_null (w : World) (r : Request) :
  fault w = None ->
  response (fetchTodos w r []) =
    Some {| status := StatusOK; content := PMap [("data", GTodos nilSlice)] |}
  /\ dataOf (fetchTodos w r []) = Some JNull
  /\ dataOf (fetchTodos w r []) <> Some (JArray []).
Proof.
  intro Hf. unfold fetchTodos, dataOf. rewrite Hf. cbn.
  repeat split. discriminate.
Qed.

Lemma C10_empty_list_is_null_witness :
  fault Sample.world = None
  /\ dataOf (fetchTodos Sample.world Sample.get []) = Some JNull.
Proof.
  split; [reflexivity|].
  exact (proj1 (proj2 (C10_empty_list_is_null Sample.world Sample.get eq_refl))).
Defined.

(** The scenario of the specification: a create is answered 201 with the
    new id; the list then has that one entry, not completed; the delete of
    the id is answered 200; the list is then empty. *)
Lemma scenario_buy_milk :
  response (createTodo Sample.world (Sample.post Sample.milk) []) =
    Some {| status := StatusCreated;
            content := PMap [("message", GString "todo created successfully");
                             ("todo_id", GString Sample.hexId)] |}
  /\ dataOf (fetchTodos Sample.world Sample.get Sample.one) =
       Some (JArray [ JObject [ ("id", JString Sample.hexId);
                                ("title", JString "buy milk");
                                ("completed", JBool false);
                                ("createdAt", JTime 1700000000123%Z) ] ])
  /\ deleteTodo Sample.world (Sample.delete Sample.hexId) Sample.one =
       reply [] [CallRemoveId (Bson.NewObjectId Sample.ids)] StatusOK
         (PMap [("message", GString "Todo deleted successfully")])
  /\ dataOf (fetchTodos Sample.world Sample.get []) = Some JNull.
Proof.
  repeat split; vm_compute; reflexivity.
Qed.

(** ** Identifiers along a run *)

Section KeyFacts.

Lemma keyed_field (d : Bson.M) :
  keyedDoc d ->
  Bson.field "_id" d = Some (Bson.VObjectId (recordId d))
  /\ String.length (recordId d) = 12.
Proof.
  intros (i & Hf & Hl). unfold recordId, unmarshalTodoModel. cbn [TodoModel.ID].
  rewrite Hf. split; [reflexivity | exact Hl].
Qed.

Lemma hasId_keyed (oid : Bson.ObjectId) (d : Bson.M) :
  keyedDoc d -> Mgo.hasId (Bson.VObjectId oid) d = String.eqb oid (recordId d).
Proof.
  intro Hk. unfold Mgo.hasId. rewrite (proj1 (keyed_field d Hk)). reflexivity.
Qed.

Lemma existsb_hasId_In (oid : Bson.ObjectId) (db : Mgo.Collection) :
  Forall keyedDoc db ->
  existsb (Mgo.hasId (Bson.VObjectId oid)) db = true <-> In oid (map recordId db).
Proof.
  induction 1 as [|d db Hd _ IH]; cbn; [split; [discriminate | contradiction]|].
  rewrite orb_true_iff, IH, (hasId_keyed oid d Hd), String.eqb_eq.
  split; (intros [H|H]; [left; now symmetry | now right]).
Qed.

Lemma replacement_field (d d' upd : Bson.M) :
  Bson.field "_id" upd = None ->
  Mgo.replacement d upd = Some d' ->
  Bson.field "_id" d' = Bson.field "_id" d.
Proof.
  intros Hu. unfold Mgo.replacement. rewrite Hu.
  destruct (Bson.field "_id" d) as [v|] eqn:E; intro H; inversion H; subst.
  - reflexivity.
  - exact Hu.
Qed.

Lemma recordId_field (d d' : Bson.M) :
  Bson.field "_id" d' = Bson.field "_id" d ->
  recordId d' = recordId d /\ (keyedDoc d -> keyedDoc d').
Proof.
  intro H. split.
  - unfold recordId, unmarshalTodoModel. cbn [TodoModel.ID]. now rewrite H.
  - unfold keyedDoc. now rewrite H.
Qed.

(** A replacement leaves every identifier where it was. *)
Lemma updateFirst_ids (sel upd : Bson.M) (c c' : Mgo.Collection) :
  Bson.field "_id" upd = None ->
  Mgo.updateFirst sel upd c = Some (inr c') ->
  map recordId c' = map recordId c /\ (Forall keyedDoc c -> Forall keyedDoc c').
Proof.
  intro Hu. revert c'. induction c as [|d c IH]; intros c' H; [discriminate|].
  cbn in H. destruct (Mgo.matches sel d).
  - destruct (Mgo.replacement d upd) as [d'|] eqn:E; inversion H; subst.
    destruct (recordId_field d d' (replacement_field d d' upd Hu E)) as [Hi Hk].
    cbn [map]. rewrite Hi. split; [reflexivity|].
    intro HF. inversion HF; subst. constructor; auto.
  - destruct (Mgo.updateFirst sel upd c) as [[e|r]|]; inversion H; subst.
    destruct (IH r eq_refl) as [Hi Hk]. cbn. rewrite Hi. split; [reflexivity|].
    intro HF. inversion HF; subst. constructor; auto.
Qed.

(** What [removeFirst] removes: the first document that matches. *)
Lemma removeFirst_split (sel : Bson.M) (c c' : Mgo.Collection) :
  Mgo.removeFirst sel c = Some c' ->
  exists pre d post,
    c = pre ++ d :: post /\ c' = pre ++ post
    /\ Mgo.matches sel d = true /\ existsb (Mgo.matches sel) pre = false.
Proof.
  revert c'. induction c as [|x c IH]; intros c' H; [discriminate|].
  cbn in H. destruct (Mgo.matches sel x) eqn:Ex.
  - inversion H; subst. exists [], x, c'. repeat split. exact Ex.
  - destruct (Mgo.removeFirst sel c) as [r|]; [|discriminate].
    inversion H; subst.
    destruct (IH r eq_refl) as (pre & d & post & Hc & Hr & Hd & Hpre).
    exists (x :: pre), d, post. subst. repeat split; [exact Hd|].
    cbn. now rewrite Ex.
Qed.

Lemma removeFirst_at (sel : Bson.M) (pre post : Mgo.Collection) (d : Bson.M) :
  existsb (Mgo.matches sel) pre = false ->
  Mgo.matches sel d = true ->
  Mgo.removeFirst sel (pre ++ d :: post) = Some (pre ++ post).
Proof.
  intros Hpre Hd. induction pre as [|x pre IH]; cbn.
  - now rewrite Hd.
  - cbn in Hpre. destruct (Mgo.matches sel x); [discriminate|].
    now rewrite (IH Hpre).
Qed.

Lemma NoDup_snoc {A : Type} (l : list A) (x : A) :
  NoDup l -> ~ In x l -> NoDup (l ++ [x]).
Proof.
  induction 1 as [|y l Hy Hl IH]; intro Hx; cbn.
  - constructor; [intros []|constructor].
  - constructor.
    + rewrite in_app_iff. intros [H|[H|[]]]; [now apply Hy|].
      subst. apply Hx. now left.
    + apply IH. intro H. apply Hx. now right.
Qed.

Lemma newTodo_keyed (w : World) (t : Todo.t) :
  keyedDoc (marshalTodoModel (newTodo w t))
  /\ recordId (marshalTodoModel (newTodo w t)) = Bson.NewObjectId (idSource w).
Proof.
  split; [|reflexivity].
  exists (Bson.NewObjectId (idSource w)). split; reflexivity.
Qed.

(** One request keeps the identifiers distinct. *)
Lemma step_distinct (w : World) (r : Request) (db : Mgo.Collection) :
  distinctIds db -> distinctIds (collection (todoHandlers w r db)).
Proof.
  intros [Hk Hn]. unfold todoHandlers. destruct (method r).
  - rewrite fetchTodos_paths. destruct (fault w); split; assumption.
  - destruct (body r) as [e|t] eqn:Hb;
      [unfold createTodo; rewrite Hb; split; assumption|].
    destruct (String.eqb (Todo.Title t) EmptyString) eqn:Ht;
      [unfold createTodo; rewrite Hb, Ht; split; assumption|].
    apply String.eqb_neq in Ht. rewrite (createTodo_paths w r db t Hb Ht). cbv zeta.
    destruct (fault w); [split; assumption|].
    destruct (existsb _ db) eqn:E; [split; assumption|].
    destruct (newTodo_keyed w t) as [Hkd Hid].
    cbn [collection reply]. split.
    + apply Forall_app. split; [exact Hk|]. constructor; [exact Hkd | constructor].
    + rewrite map_app. cbn [map]. rewrite Hid. apply NoDup_snoc; [exact Hn|].
      intro Hin. apply (existsb_hasId_In _ db Hk) in Hin. congruence.
  - destruct (updateTodo_cases w r db) as [Hc | (t & oid & _ & Hu)].
    + rewrite Hc. split; assumption.
    + destruct (updateFirst_ids _ (updateOf t) _ _ eq_refl Hu) as [Hi Hk'].
      split; [now apply Hk' | now rewrite Hi].
  - destruct (deleteTodo_cases w r db) as [[Hc _] | (oid & Hr & _)].
    + rewrite Hc. split; assumption.
    + destruct (removeFirst_split _ _ _ Hr) as (pre & d & post & Hdb & Hc & _ & _).
      rewrite Hc. subst db. split.
      * apply Forall_app in Hk. destruct Hk as [Hp Hq]. inversion Hq; subst.
        apply Forall_app. split; assumption.
      * rewrite map_app in *. cbn [map] in Hn. now apply NoDup_remove_1 in Hn.
Qed.

(** One request keeps the titles non-empty. *)
Lemma step_titled (w : World) (r : Request) (db : Mgo.Collection) :
  allTitled db -> allTitled (collection (todoHandlers w r db)).
Proof.
  intro Hinv. unfold allTitled, todoHandlers in *. destruct (method r).
  - rewrite fetchTodos_paths. destruct (fault w); exact Hinv.
  - destruct (createTodo_cases w r db) as [[Hc _] | (t & _ & Ht & Hc & _)];
      rewrite Hc; [exact Hinv|].
    apply Forall_app. split; [exact Hinv|]. constructor; [exact Ht | constructor].
  - destruct (updateTodo_cases w r db) as [Hc | (t & oid & Ht & Hu)].
    + rewrite Hc. exact Hinv.
    + apply (updateFirst_Forall titled _ _ _ _) with (3 := Hu); [|exact Hinv].
      intros d d' Hrep. unfold Mgo.replacement in Hrep.
      cbn [Bson.field updateOf String.eqb Ascii.eqb Bool.eqb] in Hrep.
      destruct (Bson.field "_id" d); inversion Hrep; subst; exact Ht.
  - destruct (deleteTodo_cases w r db) as [[Hc _] | (oid & Hr & _)].
    + rewrite Hc. exact Hinv.
    + exact (removeFirst_Forall titled _ _ _ Hinv Hr).
Qed.

Lemma run_keeps (I : Mgo.Collection -> Prop) :
  (forall w r db, I db -> I (collection (todoHandlers w r db))) ->
  forall tr db, I db -> I (run tr db).
Proof.
  intros Hstep tr. induction tr as [|[w r] tr IH]; intros db H; cbn [run].
  - exact H.
  - apply IH, Hstep, H.
Qed.

Lemma run_distinct (tr : list Step) : distinctIds (run tr []).
Proof.
  apply (run_keeps distinctIds step_distinct). split; constructor.
Qed.

Lemma run_titled (tr : list Step) : allTitled (run tr []).
Proof.
  apply (run_keeps allTitled step_titled). constructor.
Qed.

End KeyFacts.

Lemma updateFirst_again (oid : Bson.ObjectId) (upd : Bson.M) (c c' : Mgo.Collection) :
  Bson.field "_id" upd = None ->
  Mgo.updateFirst [("_id", Bson.VObjectId oid)] upd c = Some (inr c') ->
  Mgo.updateFirst [("_id", Bson.VObjectId oid)] upd c' = Some (inr c').
Proof.
  intro Hu. revert c'. induction c as [|d c IH]; intros c' H; [discriminate|].
  cbn [Mgo.updateFirst] in H.
  destruct (Mgo.matches [("_id", Bson.VObjectId oid)] d) eqn:Ed.
  - rewrite matches_id in Ed. pose proof (hasId_field oid d Ed) as Hd.
    unfold Mgo.replacement in H. rewrite Hu, Hd in H. inversion H; subst.
    cbn [Mgo.updateFirst]. rewrite matches_id. unfold Mgo.hasId, Mgo.replacement.
    cbn [Bson.field String.eqb Ascii.eqb Bool.eqb]. rewrite Hu.
    cbn [Bson.value_eqb]. now rewrite String.eqb_refl.
  - destruct (Mgo.updateFirst _ upd c) as [[e|x]|]; inversion H; subst.
    cbn [Mgo.updateFirst]. now rewrite Ed, (IH x eq_refl).
Qed.

(** ** White space around an id *)

Section PaddingFacts.

Lemma cutRune_space (c : ascii) (x : list ascii) :
  asciiSpace c ->
  Strings.cutRune Strings.spaceRunes (c :: x) = Some x
  /\ Strings.cutRune (map (@rev N) Strings.spaceRunes) (c :: x) = Some x.
Proof.
  unfold asciiSpace. cbn [In]. intro H.
  rewrite <- (ascii_N_embedding c).
  destruct H as [H|[H|[H|[H|[H|[H|[]]]]]]]; rewrite <- H; split; reflexivity.
Qed.

Lemma trimRunes_spaces (table : list (list N)) :
  (forall c x, asciiSpace c -> Strings.cutRune table (c :: x) = Some x) ->
  forall (l rest : list ascii) (fuel : nat),
    Forall asciiSpace l -> List.length l < fuel ->
    Strings.cutRune table rest = None ->
    Strings.trimRunes fuel table (l ++ rest) = rest.
Proof.
  intros Hcut l rest. induction l as [|c l IH]; intros fuel Hl Hfuel Hrest.
  - now apply trimRunes_stuck.
  - destruct fuel as [|fuel]; [cbn in Hfuel; lia|].
    inversion Hl as [|? ? Hc Hl']; subst.
    cbn [Strings.trimRunes app]. rewrite (Hcut c (l ++ rest) Hc).
    apply IH; [exact Hl' | cbn in Hfuel; lia | exact Hrest].
Qed.

(** [TrimSpace] gives a valid hex id back from between ASCII white
    space. *)
Lemma TrimSpace_padded (s : string) (l r : list ascii) :
  Bson.IsObjectIdHex s = true ->
  Forall asciiSpace l -> Forall asciiSpace r ->
  Strings.TrimSpace (padded l s r) = s.
Proof.
  intros Hv Hl Hr.
  destruct (IsObjectIdHex_inv s Hv) as (d & Hd & _).
  pose proof (proj1 (proj1 (DecodeString_sound s) d Hd)) as Hhex.
  unfold Strings.TrimSpace, padded. rewrite list_ascii_of_string_of_list_ascii.
  destruct s as [|c s0]; [discriminate Hv|].
  remember (list_ascii_of_string (String c s0)) as s' eqn:Es.
  assert (Hne : s' <> []) by (subst s'; discriminate).
  assert (HL : Strings.TrimLeftSpace (l ++ s' ++ r) = s' ++ r).
  { unfold Strings.TrimLeftSpace.
    apply (trimRunes_spaces _ (fun c x H => proj1 (cutRune_space c x H))).
    - exact Hl.
    - rewrite !length_app. destruct s'; [contradiction | cbn; lia].
    - destruct s' as [|c' s'']; [contradiction|].
      inversion Hhex as [|? ? Hc' _]; subst.
      exact (proj1 (cutRune_hexChar c' (s'' ++ r) Hc')). }
  rewrite HL. unfold Strings.TrimRightSpace. rewrite rev_app_distr.
  destruct (rev_head_Forall EncodingHex.hexChar s' Hhex Hne) as (c' & t' & Hrev & Hc').
  rewrite (trimRunes_spaces _ (fun c x H => proj2 (cutRune_space c x H))).
  - rewrite rev_involutive, Es. apply string_of_list_ascii_of_string.
  - now apply Forall_rev.
  - rewrite length_rev, length_app. destruct s'; [contradiction | cbn; lia].
  - rewrite Hrev. exact (proj2 (cutRune_hexChar c' t' Hc')).
Qed.

End PaddingFacts.

(** ** Updates and deletes that find their record *)

Section FoundFacts.

Variables (w : World) (r : Request).

Lemma withId_existsb (oid : Bson.ObjectId) (db : Mgo.Collection) :
  withId oid db = [] ->
  existsb (Mgo.matches [("_id", Bson.VObjectId oid)]) db = false.
Proof.
  intro H. rewrite existsb_matches_id. now apply withId_nil.
Qed.


Lemma deleteTodo_found
  (oid : Bson.ObjectId) (pre post : Mgo.Collection) (d : Bson.M) :
  Bson.IsObjectIdHex (Strings.TrimSpace (idParam r)) = true ->
  Bson.ObjectIdHex (Strings.TrimSpace (idParam r)) = Some oid ->
  fault w = None ->
  withId oid pre = [] ->
  Mgo.hasId (Bson.VObjectId oid) d = true ->
  deleteTodo w r (pre ++ d :: post) =
    reply (pre ++ post) [CallRemoveId oid] StatusOK
      (PMap [("message", GString "Todo deleted successfully")]).
Proof.
  intros Hv Ho Hf Hpre Hd. rewrite (deleteTodo_paths w r _ oid Hv Ho).
  unfold Mgo.RemoveId, Mgo.Remove. rewrite Hf, (removeFirst_at _ pre post d).
  - reflexivity.
  - now apply withId_existsb.
  - now rewrite matches_id.
Qed.

Lemma viewsOf_fetch (db : Mgo.Collection) :
  fault w = None ->
  viewsOf (fetchTodos w r db) = map toTodo (map unmarshalTodoModel db).
Proof.
  intro Hf. rewrite fetchTodos_paths, Hf. destruct db; reflexivity.
Qed.

End FoundFacts.

(** ** Further properties of the handlers *)




(** X3: a delete that finds its record and reaches the server answers 200
    Todo deleted successfully after one RemoveId call and removes the first
    record with that id and no other. *)
Theorem X3_delete_removes_one_record
  (w : World) (r : Request) (oid : Bson.ObjectId)
  (pre post : Mgo.Collection) (d : Bson.M) :
  Bson.IsObjectIdHex (Strings.TrimSpace (idParam r)) = true ->
  Bson.ObjectIdHex (Strings.TrimSpace (idParam r)) = Some oid ->
  fault w = None ->
  withId oid pre = [] ->
  Mgo.hasId (Bson.VObjectId oid) d = true ->
  deleteTodo w r (pre ++ d :: post) =
    reply (pre ++ post) [CallRemoveId oid] StatusOK
      (PMap [("message", GString "Todo deleted successfully")]).
Proof.
  intros Hv Ho Hf Hpre Hd. exact (deleteTodo_found w r oid pre post d Hv Ho Hf Hpre Hd).
Qed.

Lemma X3_delete_removes_one_record_witness :
  Mgo.hasId (Bson.VObjectId (Bson.NewObjectId Sample.ids))
    (marshalTodoModel (newTodo Sample.world Sample.milk)) = true
  /\ collection (deleteTodo Fixture.world2 (Sample.delete Sample.hexId) Fixture.two) =
     [marshalTodoModel (newTodo Fixture.world2 Sample.bread)].
Proof.
  split; [vm_compute; reflexivity|].
  change Fixture.two with
    ([] ++ marshalTodoModel (newTodo Sample.world Sample.milk)
        :: [marshalTodoModel (newTodo Fixture.world2 Sample.bread)]).
  rewrite (X3_delete_removes_one_record Fixture.world2 (Sample.delete Sample.hexId)
             (Bson.NewObjectId Sample.ids) []
             [marshalTodoModel (newTodo Fixture.world2 Sample.bread)]
             (marshalTodoModel (newTodo Sample.world Sample.milk))
             ltac:(vm_compute; reflexivity) ltac:(vm_compute; reflexivity)
             eq_refl eq_refl ltac:(vm_compute; reflexivity)).
  reflexivity.
Defined.

(** X4: a delete of a valid id that no record has, with the server reached,
    is answered 400 Failed to delete todo with the not-found error, after
    one RemoveId call; the collection is as before. *)
Theorem X4_delete_unknown_id
  (w : World) (r : Request) (db : Mgo.Collection) (oid : Bson.ObjectId) :
  Bson.IsObjectIdHex (Strings.TrimSpace (idParam r)) = true ->
  Bson.ObjectIdHex (Strings.TrimSpace (idParam r)) = Some oid ->
  fault w = None ->
  withId oid db = [] ->
  deleteTodo w r db =
    reply db [CallRemoveId oid] StatusBadRequest
      (PMap [("message", GString "Failed to delete todo");
             ("error", GError ErrNotFound)]).
Proof.
  intros Hv Ho Hf Hnone. exact (deleteTodo_missing_id w r db oid Hv Ho Hf Hnone).
Qed.

Lemma X4_delete_unknown_id_witness :
  withId (Bson.NewObjectId Fixture.ids2) Sample.one = []
  /\ statusOf (deleteTodo Sample.world (Sample.delete Fixture.hexId2) Sample.one)
     = Some StatusBadRequest
  /\ collection (deleteTodo Sample.world (Sample.delete Fixture.hexId2) Sample.one)
     = Sample.one.
Proof.
  split; [vm_compute; reflexivity|].
  rewrite (X4_delete_unknown_id Sample.world (Sample.delete Fixture.hexId2) Sample.one
             (Bson.NewObjectId Fixture.ids2)
             ltac:(vm_compute; reflexivity) ltac:(vm_compute; reflexivity)
             eq_refl ltac:(vm_compute; reflexivity)).
  split; reflexivity.
Defined.

(** X5: no request makes a handler panic: [bson.ObjectIdHex], which panics
    on a text that is not a hex id, is only reached behind the
    [bson.IsObjectIdHex] test. *)
Theorem X5_handlers_never_panic (w : World) (r : Request) (db : Mgo.Collection) :
  panicked (todoHandlers w r db) = false.
Proof. exact (todoHandlers_no_panic w r db). Qed.

(** X6: a request answered 400 or 102 leaves the collection as it was,
    whichever handler served it. *)
Theorem X6_error_answers_change_nothing
  (w : World) (r : Request) (db : Mgo.Collection) (code : Z) :
  statusOf (todoHandlers w r db) = Some code ->
  code = StatusBadRequest \/ code = StatusProcessing ->
  collection (todoHandlers w r db) = db.
Proof.
  unfold todoHandlers. destruct (method r); intros Hs Hcode.
  - rewrite fetchTodos_paths. destruct (fault w); reflexivity.
  - destruct (createTodo_cases w r db) as [[Hc _] | (t & _ & _ & _ & Hs')];
      [exact Hc|].
    rewrite Hs' in Hs. inversion Hs; subst code.
    destruct Hcode as [H|H]; discriminate H.
  - destruct (Bson.IsObjectIdHex (Strings.TrimSpace (idParam r))) eqn:Hv;
      [|unfold updateTodo; now rewrite Hv].
    destruct (body r) as [e|t] eqn:Hb; [unfold updateTodo; now rewrite Hv, Hb|].
    destruct (String.eqb (Todo.Title t) EmptyString) eqn:Ht;
      [unfold updateTodo; now rewrite Hv, Hb, Ht|].
    apply String.eqb_neq in Ht. destruct (ObjectIdHex_total _ Hv) as [oid Ho].
    rewrite (updateTodo_paths w r db t oid Hv Ho Hb Ht) in *.
    destruct (Mgo.Update _ _ _ _); [reflexivity | discriminate Hs].
  - destruct (deleteTodo_cases w r db) as [[Hc _] | (oid & _ & Hs')]; [exact Hc|].
    rewrite Hs' in Hs. inversion Hs; subst code.
    destruct Hcode as [H|H]; discriminate H.
Qed.

Lemma X6_error_answers_change_nothing_witness :
  statusOf (todoHandlers Sample.offline (Sample.delete Sample.hexId) Fixture.two)
    = Some StatusBadRequest
  /\ collection (todoHandlers Sample.offline (Sample.delete Sample.hexId) Fixture.two)
     = Fixture.two.
Proof.
  split; [vm_compute; reflexivity|].
  exact (X6_error_answers_change_nothing Sample.offline (Sample.delete Sample.hexId)
           Fixture.two StatusBadRequest ltac:(vm_compute; reflexivity)
           (or_introl eq_refl)).
Defined.

(** X7: a handler makes one storage call or none; when it makes none the
    collection is as before. *)
Theorem X7_at_most_one_storage_call (w : World) (r : Request) (db : Mgo.Collection) :
  (calls (todoHandlers w r db) = [] /\ collection (todoHandlers w r db) = db)
  \/ exists c, calls (todoHandlers w r db) = [c].
Proof.
  unfold todoHandlers. destruct (method r).
  - right. rewrite fetchTodos_paths. destruct (fault w); eexists; reflexivity.
  - unfold createTodo. destruct (body r) as [e|t]; [left; split; reflexivity|].
    destruct (String.eqb _ _); [left; split; reflexivity|].
    right. destruct (Mgo.Insert _ _ _ _); eexists; reflexivity.
  - unfold updateTodo. destruct (negb _); [left; split; reflexivity|].
    destruct (body r) as [e|t]; [left; split; reflexivity|].
    destruct (String.eqb _ _); [left; split; reflexivity|].
    destruct (Bson.ObjectIdHex _); [|left; split; reflexivity].
    right. destruct (Mgo.Update _ _ _ _); eexists; reflexivity.
  - unfold deleteTodo. destruct (negb _); [left; split; reflexivity|].
    destruct (Bson.ObjectIdHex _); [|left; split; reflexivity].
    right. destruct (Mgo.RemoveId _ _ _); eexists; reflexivity.
Qed.

(** X8: every response a handler writes carries 200, 201, 400 or 102: a
    record that is not found is never answered 404, and a storage failure
    never with a 5xx status. *)
Theorem X8_statuses_written
  (w : World) (r : Request) (db : Mgo.Collection) (code : Z) :
  statusOf (todoHandlers w r db) = Some code ->
  In code [StatusOK; StatusCreated; StatusBadRequest; StatusProcessing].
Proof.
  unfold todoHandlers, statusOf. destruct (method r).
  - rewrite fetchTodos_paths.
    destruct (fault w); intro H; inversion H; cbn; auto.
  - unfold createTodo. destruct (body r) as [e|t]; [intro H; inversion H; cbn; auto|].
    destruct (String.eqb _ _); [intro H; inversion H; cbn; auto|].
    destruct (Mgo.Insert _ _ _ _); intro H; inversion H; cbn; auto.
  - unfold updateTodo. destruct (negb _); [intro H; inversion H; cbn; auto|].
    destruct (body r) as [e|t]; [intro H; inversion H; cbn; auto|].
    destruct (String.eqb _ _); [intro H; inversion H; cbn; auto|].
    destruct (Bson.ObjectIdHex _); [|discriminate].
    destruct (Mgo.Update _ _ _ _); intro H; inversion H; cbn; auto.
  - unfold deleteTodo. destruct (negb _); [intro H; inversion H; cbn; auto|].
    destruct (Bson.ObjectIdHex _); [|discriminate].
    destruct (Mgo.RemoveId _ _ _); intro H; inversion H; cbn; auto.
Qed.

Lemma X8_statuses_written_witness :
  statusOf (todoHandlers Sample.offline Sample.get Sample.one) = Some StatusProcessing
  /\ In StatusProcessing [StatusOK; StatusCreated; StatusBadRequest; StatusProcessing].
Proof.
  split; [reflexivity|].
  exact (X8_statuses_written Sample.offline Sample.get Sample.one StatusProcessing
           eq_refl).
Defined.

(** X9: after any sequence of requests from the empty collection, the
    records have pairwise distinct identifiers. *)
Theorem X9_identifiers_stay_distinct (tr : list Step) :
  NoDup (map recordId (run tr [])).
Proof. exact (proj2 (run_distinct tr)). Qed.

(** X10: after any sequence of requests from the empty collection, the
    view of every record carries an id that [IsObjectIdHex] accepts and
    that [ObjectIdHex] turns back into the record's identifier, and a
    non-empty title. *)
Theorem X10_listed_ids_are_usable (tr : list Step) (d : Bson.M) :
  In d (run tr []) ->
  Bson.IsObjectIdHex (Todo.ID (toTodo (unmarshalTodoModel d))) = true
  /\ Bson.ObjectIdHex (Todo.ID (toTodo (unmarshalTodoModel d))) = Some (recordId d)
  /\ Todo.Title (toTodo (unmarshalTodoModel d)) <> EmptyString.
Proof.
  intro Hin.
  pose proof (proj1 (run_distinct tr)) as Hk. pose proof (run_titled tr) as Ht.
  unfold allTitled in Ht. rewrite Forall_forall in Hk, Ht.
  destruct (keyed_field d (Hk d Hin)) as [_ Hlen].
  destruct (ObjectIdHex_Hex (recordId d) Hlen) as [H1 H2].
  split; [exact H1|]. split; [exact H2|]. exact (Ht d Hin).
Qed.

Lemma X10_listed_ids_are_usable_witness :
  In [("_id", Bson.VObjectId (Bson.NewObjectId Sample.ids));
      ("title", Bson.VString "buy bread"); ("completed", Bson.VBool true)]
     (run Fixture.trace [])
  /\ Bson.IsObjectIdHex Sample.hexId = true.
Proof.
  assert (H : In [("_id", Bson.VObjectId (Bson.NewObjectId Sample.ids));
                  ("title", Bson.VString "buy bread"); ("completed", Bson.VBool true)]
                 (run Fixture.trace [])) by (vm_compute; left; reflexivity).
  split; [exact H|].
  exact (proj1 (X10_listed_ids_are_usable Fixture.trace _ H)).
Defined.

(** X11: a delete given the todo_id that a successful create returned, with
    the server reached, is answered 200 and leaves the collection as it was
    before the create. *)
Theorem X11_create_then_delete
  (w w' : World) (r r' : Request) (db : Mgo.Collection) (t : Todo.t) :
  body r = Decodes t -> Todo.Title t <> EmptyString ->
  fault w = None ->
  withId (Bson.NewObjectId (idSource w)) db = [] ->
  fault w' = None ->
  idParam r' = Bson.Hex (Bson.NewObjectId (idSource w)) ->
  statusOf (createTodo w r db) = Some StatusCreated
  /\ deleteTodo w' r' (collection (createTodo w r db)) =
       reply db [CallRemoveId (Bson.NewObjectId (idSource w))] StatusOK
         (PMap [("message", GString "Todo deleted successfully")]).
Proof.
  intros Hb Ht Hf Hnew Hf' Hid.
  rewrite (createTodo_paths w r db t Hb Ht), Hf. cbv zeta.
  rewrite (proj1 (withId_nil db _) Hnew). split; [reflexivity|].
  cbn [collection reply].
  destruct (ObjectIdHex_Hex _ (NewObjectId_length (idSource w))) as [Hv Ho].
  rewrite <- Hid in Hv, Ho.
  pose proof (TrimSpace_IsObjectIdHex _ Hv) as Htrim.
  rewrite (deleteTodo_found w' r' (Bson.NewObjectId (idSource w)) db []
             (marshalTodoModel (newTodo w t))).
  - now rewrite app_nil_r.
  - now rewrite Htrim.
  - now rewrite Htrim.
  - exact Hf'.
  - exact Hnew.
  - rewrite (hasId_keyed _ _ (proj1 (newTodo_keyed w t))).
    rewrite (proj2 (newTodo_keyed w t)). apply String.eqb_refl.
Qed.

Lemma X11_create_then_delete_witness :
  Todo.Title Sample.bread <> EmptyString
  /\ withId (Bson.NewObjectId Fixture.ids2) Sample.one = []
  /\ collection (deleteTodo Sample.world (Sample.delete Fixture.hexId2)
                   (collection (createTodo Fixture.world2 (Sample.post Sample.bread)
                                  Sample.one)))
     = Sample.one.
Proof.
  split; [discriminate|].
  split; [vm_compute; reflexivity|].
  rewrite (proj2 (X11_create_then_delete Fixture.world2 Sample.world
                    (Sample.post Sample.bread) (Sample.delete Fixture.hexId2)
                    Sample.one Sample.bread eq_refl ltac:(discriminate) eq_refl
                    ltac:(vm_compute; reflexivity) eq_refl
                    ltac:(vm_compute; reflexivity))).
  reflexivity.
Defined.

(** X12: after a successful create, a list whose query succeeds returns
    the views it returned before together with the view of the new record
    (the hex form of the new id, the submitted title, completed false and
    the creation time), one view more and no other; nothing is said of
    their order, which the store decides. *)
Theorem X12_create_then_list
  (w w' : World) (r r' : Request) (db : Mgo.Collection) (t : Todo.t) :
  body r = Decodes t -> Todo.Title t <> EmptyString ->
  fault w = None ->
  withId (Bson.NewObjectId (idSource w)) db = [] ->
  fault w' = None ->
  Permutation
    (viewsOf (fetchTodos w' r' (collection (createTodo w r db))))
    ({| Todo.ID := Bson.Hex (Bson.NewObjectId (idSource w));
        Todo.Title := Todo.Title t;
        Todo.Completed := false;
        Todo.CreatedAt := now w |}
       :: viewsOf (fetchTodos w' r' db)).
Proof.
  intros Hb Ht Hf Hnew Hf'.
  rewrite !(viewsOf_fetch w' r' _ Hf').
  destruct (createTodo_cases w r db) as [[_ Hs] | (t' & Hb' & _ & Hc & _)].
  - exfalso. apply Hs.
    rewrite (createTodo_paths w r db t Hb Ht), Hf. cbv zeta.
    now rewrite (proj1 (withId_nil db _) Hnew).
  - rewrite Hb in Hb'. inversion Hb'; subst t'. rewrite Hc, !map_app.
    apply Permutation_sym, Permutation_cons_append.
Qed.

Lemma X12_create_then_list_witness :
  Todo.Title Sample.bread <> EmptyString
  /\ withId (Bson.NewObjectId Fixture.ids2) Sample.one = []
  /\ List.length (viewsOf (fetchTodos Sample.world Sample.get
                             (collection (createTodo Fixture.world2
                                            (Sample.post Sample.bread) Sample.one))))
     = 2.
Proof.
  split; [discriminate|].
  split; [vm_compute; reflexivity|].
  rewrite (Permutation_length
             (X12_create_then_list Fixture.world2 Sample.world
                (Sample.post Sample.bread) Sample.get Sample.one Sample.bread
                eq_refl ltac:(discriminate) eq_refl ltac:(vm_compute; reflexivity)
                eq_refl)).
  reflexivity.
Defined.

(** X13: after any sequence of requests from the empty collection, a delete
    answered 200 has removed the only record with its id: the same delete
    once more, with the server reached, is answered 400 Failed to delete
    todo with the not-found error and changes nothing. *)
Theorem X13_delete_twice
  (tr : list Step) (w1 w2 : World) (r : Request) :
  statusOf (deleteTodo w1 r (run tr [])) = Some StatusOK ->
  fault w2 = None ->
  exists oid,
    deleteTodo w2 r (collection (deleteTodo w1 r (run tr []))) =
      reply (collection (deleteTodo w1 r (run tr []))) [CallRemoveId oid]
        StatusBadRequest
        (PMap [("message", GString "Failed to delete todo");
               ("error", GError ErrNotFound)]).
Proof.
  intros Hs Hf2. destruct (run_distinct tr) as [Hk Hn].
  remember (run tr []) as db eqn:Edb. clear Edb.
  destruct (Bson.IsObjectIdHex (Strings.TrimSpace (idParam r))) eqn:Hv;
    [|unfold deleteTodo in Hs; rewrite Hv in Hs; discriminate Hs].
  destruct (ObjectIdHex_total _ Hv) as [oid Ho]. exists oid.
  rewrite (deleteTodo_paths w1 r db oid Hv Ho) in *.
  unfold Mgo.RemoveId, Mgo.Remove in *.
  destruct (fault w1); [discriminate Hs|].
  destruct (Mgo.removeFirst _ db) as [c'|] eqn:Er; [|discriminate Hs].
  cbn [collection reply].
  destruct (removeFirst_split _ _ _ Er) as (pre & d & post & Hdb & Hc & Hd & _).
  subst db c'.
  apply (deleteTodo_missing_id w2 r _ oid Hv Ho Hf2).
  apply withId_nil.
  assert (Hk' : Forall keyedDoc (pre ++ post)).
  { apply Forall_app in Hk. destruct Hk as [Hp Hq]. inversion Hq; subst.
    apply Forall_app. split; assumption. }
  destruct (existsb _ (pre ++ post)) eqn:E; [|reflexivity]. exfalso.
  apply (existsb_hasId_In oid _ Hk') in E.
  rewrite map_app in Hn. cbn [map] in Hn. apply NoDup_remove_2 in Hn.
  apply Hn. rewrite <- map_app.
  assert (Hkd : keyedDoc d).
  { apply Forall_app in Hk. destruct Hk as [_ Hq]. now inversion Hq. }
  rewrite matches_id, (hasId_keyed oid d Hkd) in Hd.
  apply String.eqb_eq in Hd. now rewrite <- Hd.
Qed.

Lemma X13_delete_twice_witness :
  statusOf (deleteTodo Sample.world (Sample.delete Sample.hexId) (run Fixture.trace []))
    = Some StatusOK
  /\ exists oid,
       deleteTodo Sample.world (Sample.delete Sample.hexId)
         (collection (deleteTodo Sample.world (Sample.delete Sample.hexId)
                        (run Fixture.trace []))) =
       reply (collection (deleteTodo Sample.world (Sample.delete Sample.hexId)
                            (run Fixture.trace [])))
         [CallRemoveId oid] StatusBadRequest
         (PMap [("message", GString "Failed to delete todo");
                ("error", GError ErrNotFound)]).
Proof.
  split; [vm_compute; reflexivity|].
  exact (X13_delete_twice Fixture.trace Sample.world Sample.world
           (Sample.delete Sample.hexId) ltac:(vm_compute; reflexivity) eq_refl).
Defined.

(** X14: ASCII white space before and after a valid id in the URL parameter
    changes nothing: delete and update do with the padded parameter what
    they do with the id itself. *)
Theorem X14_padding_is_ignored
  (w : World) (r r' : Request) (db : Mgo.Collection) (l p : list ascii) :
  Bson.IsObjectIdHex (idParam r) = true ->
  Forall asciiSpace l -> Forall asciiSpace p ->
  idParam r' = padded l (idParam r) p ->
  body r' = body r ->
  deleteTodo w r' db = deleteTodo w r db
  /\ updateTodo w r' db = updateTodo w r db.
Proof.
  intros Hv Hl Hp Hid Hb. unfold deleteTodo, updateTodo.
  rewrite Hid, Hb, (TrimSpace_padded _ l p Hv Hl Hp), (TrimSpace_IsObjectIdHex _ Hv).
  split; reflexivity.
Qed.

Lemma X14_padding_is_ignored_witness :
  Bson.IsObjectIdHex Sample.hexId = true
  /\ Forall asciiSpace [" "%char; "009"%char]
  /\ Forall asciiSpace ["010"%char]
  /\ deleteTodo Sample.world
       (Sample.delete (padded [" "%char; "009"%char] Sample.hexId ["010"%char]))
       Sample.one
     = deleteTodo Sample.world (Sample.delete Sample.hexId) Sample.one.
Proof.
  assert (H1 : Forall asciiSpace [" "%char; "009"%char]).
  { repeat constructor; unfold asciiSpace; cbn; tauto. }
  assert (H2 : Forall asciiSpace ["010"%char]).
  { repeat constructor; unfold asciiSpace; cbn; tauto. }
  split; [vm_compute; reflexivity|].
  split; [exact H1|]. split; [exact H2|].
  exact (proj1 (X14_padding_is_ignored Sample.world (Sample.delete Sample.hexId)
                  (Sample.delete (padded [" "%char; "009"%char] Sample.hexId
                                    ["010"%char]))
                  Sample.one [" "%char; "009"%char] ["010"%char]
                  ltac:(vm_compute; reflexivity) H1 H2 eq_refl eq_refl)).
Defined.

(** X15: an update is idempotent: served again with the same request and
    the same state of the server, on the collection the first update left,
    it ends as the first did, with the same response if any, the same call
    and the same collection. *)
Theorem X15_update_is_idempotent (w : World) (r : Request) (db : Mgo.Collection) :
  updateTodo w r (collection (updateTodo w r db)) = updateTodo w r db.
Proof.
  destruct (Bson.IsObjectIdHex (Strings.TrimSpace (idParam r))) eqn:Hv;
    [|unfold updateTodo; now rewrite Hv].
  destruct (body r) as [e|t] eqn:Hb; [unfold updateTodo; now rewrite Hv, Hb|].
  destruct (String.eqb (Todo.Title t) EmptyString) eqn:Ht;
    [unfold updateTodo; now rewrite Hv, Hb, Ht|].
  apply String.eqb_neq in Ht. destruct (ObjectIdHex_total _ Hv) as [oid Ho].
  rewrite !(updateTodo_paths w r _ t oid Hv Ho Hb Ht), !Update_paths.
  destruct (fault w) as [e|]; [reflexivity|].
  destruct (Mgo.updateFirst _ _ db) as [[e|c']|] eqn:E; cbn [collection reply silent].
  - now rewrite E.
  - now rewrite (updateFirst_again oid (updateOf t) db c' eq_refl E).
  - now rewrite E.
Qed.

(** X16: a create whose generated identifier is already in the collection
    is answered 102 Failed to save todo and stores nothing: no record is
    overwritten. *)
Theorem X16_create_never_overwrites
  (w : World) (r : Request) (db : Mgo.Collection) (t : Todo.t) :
  body r = Decodes t -> Todo.Title t <> EmptyString ->
  withId (Bson.NewObjectId (idSource w)) db <> [] ->
  response (createTodo w r db) = Some (message StatusProcessing "Failed to save todo")
  /\ collection (createTodo w r db) = db.
Proof.
  intros Hb Ht Hdup. rewrite (createTodo_paths w r db t Hb Ht). cbv zeta.
  destruct (fault w); [split; reflexivity|].
  destruct (existsb _ db) eqn:E; [split; reflexivity|].
  exfalso. apply Hdup. now apply withId_nil.
Qed.

Lemma X16_create_never_overwrites_witness :
  Todo.Title Sample.bread <> EmptyString
  /\ withId (Bson.NewObjectId (idSource Sample.world)) Sample.one <> []
  /\ collection (createTodo Sample.world (Sample.post Sample.bread) Sample.one)
     = Sample.one.
Proof.
  assert (H : withId (Bson.NewObjectId (idSource Sample.world)) Sample.one <> [])
    by (vm_compute; discriminate).
  split; [discriminate|]. split; [exact H|].
  exact (proj2 (X16_create_never_overwrites Sample.world (Sample.post Sample.bread)
                  Sample.one Sample.bread eq_refl ltac:(discriminate) H)).
Defined.
